(** * The aria2 mirror plugin: registry, lifecycle handlers, progress loop

    A shallow embedding of [bot/plugins/aria2.py].  The plugin keeps three
    dictionaries and two sets in one [Aria2WebSocketServer] object and
    mutates them from coroutines that are serialised by one [asyncio.Lock].
    Here the object is a record, every coroutine is a function in a
    state-and-exception monad over that record, and every [await] that talks
    to a collaborator (the aria2 RPC client, the file system, the drive
    plugin, the chat channel) reads its answer from an explicit [World]. *)

From Stdlib Require Import ZArith NArith Ascii String List Lia.
From stdpp Require Import base strings gmap list.

Local Open Scope Z_scope.

(** ** Data model *)

(** What [file.is_file()] / [file.is_dir()] can observe about a path. *)
Inductive PathKind := KFile | KDir | KMissing.

(** Modelled from the spec: [util.aria2.Download] (module [util], outside
    this file) is the snapshot of one download's engine-reported state; these
    are the fields the plugin reads.  [status] stays a string, as in the RPC
    reply. *)
Record Download := mkDownload {
  gid : string;
  name : string;
  status : string;
  metadata : bool;
  bittorrent : bool;
  path : string;
  dir : string;
  info_hash : string;
  error_message : string;
  error_code : string
}.

(** Modelled from the spec: [command.Context] (module [command], outside
    this file) holds the message that issued the command and the reply the
    bot keeps editing, the single active notification.  Messages are
    numbered. *)
Record Context := mkContext {
  msg : nat;
  response : option nat
}.

(** The resumable upload handle [drive.uploadFile] returns. *)
Record MediaFileUpload := mkUpload {
  u_gid : string;
  u_name : string;
  start_time : Z
}.

(** A value of [self.uploads]: the handle of a file upload, or the dict
    [{"generator": folderTasks, "counter": n}] of a folder upload.  The
    generator is an object shared with the handler that iterates it, so the
    dict holds a reference into [generators]. *)
Inductive Upload :=
| UFile (f : MediaFileUpload)
| UFolder (generator : nat) (counter : nat).

(** Modelled from the spec: [drive.uploadFolder] (drive plugin) is a lazy
    sequence with one upload task per file still to be discovered; closing
    it early ends the sequence. *)
Record Generator := mkGenerator {
  g_gid : string;
  g_pending : nat;
  g_closed : bool
}.

(** A task of the event loop as [asyncio.all_tasks()] and [Task.cancel()]
    see it. *)
Record Task := mkTask {
  t_name : string;
  t_cancelled : bool;
  t_done : bool
}.

Inductive RespondMode := ModeEdit | ModeReply.

(** Calls that leave the plugin, in the order they are made. *)
Inductive Event :=
| EvRespond (target : nat) (text : string) (mode : RespondMode)
| EvCtxRespond (ctx_msg : nat) (text : string) (mode : RespondMode)
| EvDelete (message : nat)
| EvUploadFile (g : string)
| EvCreateFolder (folder : string)
| EvUploadFolder (g : string) (generator : nat)
| EvDecrypt (g : string)
| EvSpawnSeed (task_name : string)
| EvSleep (seconds : Z)
| EvAddUri (uri : string)
| EvAddTorrent (torrent : string)
| EvForcePause (g : string)
| EvForceRemove (g : string).

(** The exceptions the modelled code can meet. *)
Inductive exn :=
| KeyError (key : string)
| AttributeError
| TypeError
| Aria2rpcException (text : string)
| CancelledError
| HttpError
| MessageNotModified
| FloodWait (x : Z)
| UnicodeDecodeError
| ValueError
| ZeroDivisionError
| RetryError
| OtherError.

Inductive res (A : Type) :=
| Val (a : A)
| Exc (e : exn).
Arguments Val {A} a.
Arguments Exc {A} e.

(** [Aria2WebSocketServer], with the two pieces of the event loop its code
    reaches through [asyncio.all_tasks()] and through generator references,
    and the trace of outgoing calls. *)
Record Server := mkServer {
  cancelled : gset string;
  downloads : gmap string Download;
  uploads : gmap string Upload;
  context : option Context;
  mega : gset string;
  index_link : option string;
  stopping : bool;
  generators : list Generator;
  all_tasks : list Task;
  trace : list Event
}.

Definition init_server (link : option string) : Server :=
  mkServer ∅ ∅ ∅ None ∅ link false [] [] [].

Definition set_cancelled (f : gset string -> gset string) (s : Server) : Server :=
  mkServer (f (cancelled s)) (downloads s) (uploads s) (context s) (mega s)
    (index_link s) (stopping s) (generators s) (all_tasks s) (trace s).

Definition set_downloads (f : gmap string Download -> gmap string Download)
    (s : Server) : Server :=
  mkServer (cancelled s) (f (downloads s)) (uploads s) (context s) (mega s)
    (index_link s) (stopping s) (generators s) (all_tasks s) (trace s).

Definition set_uploads (f : gmap string Upload -> gmap string Upload)
    (s : Server) : Server :=
  mkServer (cancelled s) (downloads s) (f (uploads s)) (context s) (mega s)
    (index_link s) (stopping s) (generators s) (all_tasks s) (trace s).

Definition set_context (c : option Context) (s : Server) : Server :=
  mkServer (cancelled s) (downloads s) (uploads s) c (mega s)
    (index_link s) (stopping s) (generators s) (all_tasks s) (trace s).

Definition set_mega (f : gset string -> gset string) (s : Server) : Server :=
  mkServer (cancelled s) (downloads s) (uploads s) (context s) (f (mega s))
    (index_link s) (stopping s) (generators s) (all_tasks s) (trace s).

Definition set_generators (f : list Generator -> list Generator)
    (s : Server) : Server :=
  mkServer (cancelled s) (downloads s) (uploads s) (context s) (mega s)
    (index_link s) (stopping s) (f (generators s)) (all_tasks s) (trace s).

Definition set_all_tasks (f : list Task -> list Task) (s : Server) : Server :=
  mkServer (cancelled s) (downloads s) (uploads s) (context s) (mega s)
    (index_link s) (stopping s) (generators s) (f (all_tasks s)) (trace s).

Definition set_trace (f : list Event -> list Event) (s : Server) : Server :=
  mkServer (cancelled s) (downloads s) (uploads s) (context s) (mega s)
    (index_link s) (stopping s) (generators s) (all_tasks s) (f (trace s)).

(** ** The monad of coroutine bodies

    A body runs on the server object and either returns or raises; what it
    wrote before raising stays written, as in Python. *)
Definition M (A : Type) : Type := Server -> res A * Server.

Definition ret {A} (a : A) : M A := fun s => (Val a, s).
Definition raise {A} (e : exn) : M A := fun s => (Exc e, s).
Definition bind {A B} (c : M A) (k : A -> M B) : M B :=
  fun s => match c s with
           | (Val a, s') => k a s'
           | (Exc e, s') => (Exc e, s')
           end.
Definition get : M Server := fun s => (Val s, s).
Definition modify (f : Server -> Server) : M unit := fun s => (Val tt, f s).
Definition lift {A} (r : res A) : M A := fun s => (r, s).
Definition emit (e : Event) : M unit :=
  modify (set_trace (fun t => t ++ [e])).

Notation "'let*' x ':=' c 'in' k" := (bind c (fun x => k))
  (at level 10, x name, c at level 100, k at level 200).
Notation "c '>>' k" := (bind c (fun _ => k))
  (at level 100, k at level 200, right associativity).

(** [try: body except <handled>: handler]. *)
Definition try_except {A} (body : M A) (handler : exn -> option (M A)) : M A :=
  fun s => match body s with
           | (Val a, s') => (Val a, s')
           | (Exc e, s') => match handler e with
                            | Some h => h s'
                            | None => (Exc e, s')
                            end
           end.

(** [try: body finally: fin]. *)
Definition try_finally {A} (body : M A) (fin : M unit) : M A :=
  fun s => match body s with
           | (r, s') => match fin s' with
                        | (Val _, s'') => (r, s'')
                        | (Exc e, s'') => (Exc e, s'')
                        end
           end.

(** ** The collaborators *)

(** The reply of [tellStatus(gid, ["status", "followedBy"])]. *)
Record StatusDoc := mkStatusDoc {
  sd_status : string;
  sd_followedBy : option (list string)
}.

(** [bool(res.get("followedBy"))]: a missing key and an empty list are
    both false. *)
Definition truthy {A} (v : option (list A)) : bool :=
  match v with
  | Some (_ :: _) => true
  | _ => false
  end.

(** The aria2 RPC client, as it would answer now. *)
Record Engine := mkEngine {
  tellStatus : string -> res Download;
  tellStatusFields : string -> res StatusDoc;
  addUri : string -> res string;
  addTorrent : string -> res string;
  forcePause : string -> res unit;
  forceRemove : string -> res unit
}.

(** What [next_chunk] reports: the partial status of a resumable upload and
    the terminal response of the drive API. *)
Record UploadStatus := mkUploadStatus {
  total_size : Z;
  resumable_progress : Z
}.

Record Response := mkResponse {
  r_size : option Z;
  r_webContentLink : option string
}.

(** What the awaits of one step observe. *)
Record World := mkWorld {
  engine : Engine;
  next_chunk : MediaFileUpload ->
               res (option UploadStatus * option Response);
  fs : string -> PathKind;
  clock : Z;
  channel : res nat;
  new_folder_id : string;
  folder_files : nat
}.

(** Modelled from the spec: [Download.is_file] and [Download.is_dir]
    (module [util]) ask the file system what the path of the download
    resolves to. *)
Definition is_file (w : World) (file : Download) : bool :=
  match fs w (path file) with KFile => true | _ => false end.

Definition is_dir (w : World) (file : Download) : bool :=
  match fs w (path file) with KDir => true | _ => false end.

(** ** Registry primitives *)

(** [self.count]. *)
Definition count (s : Server) : nat := size (downloads s).

(** [del self.downloads[g]]. *)
Definition del_download (g : string) : M unit :=
  fun s => match downloads s !! g with
           | Some _ => (Val tt, set_downloads (delete g) s)
           | None => (Exc (KeyError g), s)
           end.

(** [del self.uploads[g]]. *)
Definition del_upload (g : string) : M unit :=
  fun s => match uploads s !! g with
           | Some _ => (Val tt, set_uploads (delete g) s)
           | None => (Exc (KeyError g), s)
           end.

(** [self.context.msg] and [self.context.response]. *)
Definition context_msg : M nat :=
  fun s => match context s with
           | Some c => (Val (msg c), s)
           | None => (Exc AttributeError, s)
           end.

Definition context_response : M (option nat) :=
  fun s => match context s with
           | Some c => (Val (response c), s)
           | None => (Exc AttributeError, s)
           end.

(** [checkDelete].  The deletion of the notification is recorded in the
    trace, and the chat is taken to carry it out: no run of [checkDelete]
    raises. *)
Definition checkDelete : M unit :=
  fun s =>
    match count s, context s with
    | O, Some c =>
        match response c with
        | Some r => (emit (EvDelete r) >> modify (set_context None)) s
        | None => (Val tt, s)
        end
    | _, _ => (Val tt, s)
    end.

(** [getDownload]. *)
Definition getDownload (w : World) (g : string) : M Download :=
  lift (tellStatus (engine w) g).

(** [onDownloadStart]. *)
Definition onDownloadStart (w : World) (g : string) : M unit :=
  let* d := getDownload w g in
  modify (set_downloads (insert g d)).

(** ** Text helpers *)

(** [os.path.join a b] on a POSIX host. *)
Definition join (a b : string) : string :=
  match b with
  | String "/" _ => b
  | _ =>
      match a with
      | EmptyString => b
      | _ => if String.eqb (substring (String.length a - 1) 1 a) "/"
             then a +:+ b
             else a +:+ "/" +:+ b
      end
  end.

(** A text is held as the bytes of its UTF-8 encoding; a Python string is
    the sequence of code points they encode.  [str.capitalize] is modelled
    for the ASCII letters of the status words of aria2. *)
Definition upper (c : ascii) : ascii :=
  let n := nat_of_ascii c in
  if (97 <=? n)%nat && (n <=? 122)%nat then ascii_of_nat (n - 32) else c.

Definition lower (c : ascii) : ascii :=
  let n := nat_of_ascii c in
  if (65 <=? n)%nat && (n <=? 90)%nat then ascii_of_nat (n + 32) else c.

Fixpoint map_string (f : ascii -> ascii) (s : string) : string :=
  match s with
  | EmptyString => EmptyString
  | String c r => String (f c) (map_string f r)
  end.

Definition capitalize (s : string) : string :=
  match s with
  | EmptyString => EmptyString
  | String c r => String (upper c) (map_string lower r)
  end.

(** The UTF-8 encoding of a code point of the Basic Multilingual Plane. *)
Definition utf8 (cp : N) : string :=
  if (cp <? 128)%N then String (ascii_of_N cp) ""
  else if (cp <? 2048)%N then
    String (ascii_of_N (192 + cp / 64))
      (String (ascii_of_N (128 + cp mod 64)) "")
  else
    String (ascii_of_N (224 + cp / 4096))
      (String (ascii_of_N (128 + (cp / 64) mod 64))
         (String (ascii_of_N (128 + cp mod 64)) "")).

(** The code points [str.isspace] accepts, which are the ones [str.strip]
    removes: U+0009 to U+000D, U+001C to U+0020, U+0085, U+00A0, U+1680,
    U+2000 to U+200A, U+2028, U+2029, U+202F, U+205F and U+3000. *)
Definition whitespace : list N :=
  [9; 10; 11; 12; 13; 28; 29; 30; 31; 32; 133; 160; 5760;
   8192; 8193; 8194; 8195; 8196; 8197; 8198; 8199; 8200; 8201; 8202;
   8232; 8233; 8239; 8287; 12288]%N.

(** [s] without its prefix [p], if it starts with it. *)
Fixpoint strip_prefix (p s : string) : option string :=
  match p, s with
  | EmptyString, _ => Some s
  | String a p', String b s' =>
      if Ascii.eqb a b then strip_prefix p' s' else None
  | String _ _, EmptyString => None
  end.

(** [s] without one leading white-space character, [enc] giving the bytes
    of a code point in the order they are met. *)
Fixpoint strip_one (enc : N -> string) (cps : list N) (s : string)
    : option string :=
  match cps with
  | [] => None
  | cp :: rest =>
      match strip_prefix (enc cp) s with
      | Some r => Some r
      | None => strip_one enc rest s
      end
  end.

Fixpoint strip_fuel (enc : N -> string) (fuel : nat) (s : string) : string :=
  match fuel with
  | O => s
  | S fuel' =>
      match strip_one enc whitespace s with
      | Some r => strip_fuel enc fuel' r
      | None => s
      end
  end.

(** [str.lstrip], [str.rstrip] and [str.strip] without argument; from the
    right the bytes are met in reverse. *)
Definition lstrip (s : string) : string :=
  strip_fuel utf8 (String.length s) s.

Definition rstrip (s : string) : string :=
  String.rev (strip_fuel (fun cp => String.rev (utf8 cp)) (String.length s)
                (String.rev s)).

Definition strip (s : string) : string := rstrip (lstrip s).

(** A byte that continues a code point begun before it. *)
Definition is_continuation (c : ascii) : bool :=
  let n := nat_of_ascii c in (128 <=? n)%nat && (n <? 192)%nat.

(** [s.replace("", new)]: [new] before every code point and at the end. *)
Fixpoint between (new s : string) : string :=
  match s with
  | EmptyString => new
  | String c r =>
      if is_continuation c then String c (between new r)
      else new +:+ String c (between new r)
  end.

Fixpoint replace_fuel (fuel : nat) (old new s : string) : string :=
  match fuel with
  | O => s
  | S fuel' =>
      match s with
      | EmptyString => EmptyString
      | String c r =>
          if String.prefix old s
          then new +:+ replace_fuel fuel' old new
                         (substring (String.length old)
                            (String.length s - String.length old) s)
          else String c (replace_fuel fuel' old new r)
      end
  end.

(** [s.replace(old, new)]: from the left, every occurrence of [old] that
    does not overlap an earlier one. *)
Definition replace (old new s : string) : string :=
  match old with
  | EmptyString => between new s
  | String _ _ => replace_fuel (String.length s) old new s
  end.

(** [s.split(":", 2)[-1]]. *)
Fixpoint after_colon (s : string) : option string :=
  match s with
  | EmptyString => None
  | String c r => if Ascii.eqb c ":" then Some r else after_colon r
  end.

Definition split2_last (s : string) : string :=
  match after_colon s with
  | None => s
  | Some r => match after_colon r with
              | None => r
              | Some r' => r'
              end
  end.

(** [old in s]. *)
Fixpoint contains (old s : string) : bool :=
  String.prefix old s ||
  match s with
  | EmptyString => false
  | String _ r => contains old r
  end.

Section Plugin.

(** [urllib.parse.quote] and [util.file.human_readable_bytes]: pure text
    functions from outside the plugin. *)
Variable quote : string -> string.
Variable human : Z -> string.

(** The progress blocks of [checkProgress] and [uploadProgress] are built
    with floating-point arithmetic and helpers of [util]; each is a
    function that returns the text or raises (a division by zero). *)
Variable render_upload : MediaFileUpload -> UploadStatus -> Z -> res string.
Variable render_folder : Download -> nat -> res string.
Variable render_decrypt : World -> Download -> res string.
Variable render_download : Download -> string.

(** [ast.literal_eval] followed by [res["error"]["message"]], and
    [str(bytes, "utf-8")]. *)
Variable literal_eval_message : string -> res string.
Variable utf8_decode : list Byte.byte -> option string.

(** The folder-complete text of [onDownloadComplete]. *)
Definition folderLink (s : Server) (file : Download) (folderId : string) : string :=
  let base := "**GoogleDrive folderLink**: [" +:+ name file +:+
              "](https://drive.google.com/drive/folders/" +:+ folderId +:+ ")" in
  match index_link s with
  | Some il => base +:+ "

__IndexLink__: [Here](" +:+ join il (quote (name file +:+ "/")) +:+ ")."
  | None => base
  end.

(** ** The drive plugin and the chat channel, at their interface *)

(** Modelled from the spec: [drive.uploadFile] (drive plugin) returns a
    handle that wraps the resumable upload and a start timestamp. *)
Definition uploadFile (w : World) (file : Download) : M MediaFileUpload :=
  emit (EvUploadFile (gid file)) >>
  ret (mkUpload (gid file) (name file) (clock w)).

(** Modelled from the spec: [drive.createFolder] (drive plugin) returns the
    id of the remote folder. *)
Definition createFolder (w : World) (folder : string) : M string :=
  emit (EvCreateFolder folder) >> ret (new_folder_id w).

(** Modelled from the spec: [drive.uploadFolder] (drive plugin) returns a
    fresh lazy sequence for the files under the tree, tagged with the gid.
    The result is the reference to the new generator object. *)
Definition uploadFolder (w : World) (g : string) : M nat :=
  let* s := get in
  let r := length (generators s) in
  modify (set_generators (fun gs => gs ++ [mkGenerator g (folder_files w) false])) >>
  emit (EvUploadFolder g r) >>
  ret r.

(** [generator.__anext__()]: [None] stands for StopAsyncIteration; otherwise
    the sequence creates the next upload task, named after the gid, and
    yields it. *)
Definition anext (r : nat) : M (option nat) :=
  let* s := get in
  match generators s !! r with
  | Some g =>
      if g_closed g then ret None
      else match g_pending g with
           | O => ret None
           | S n =>
               let t := length (all_tasks s) in
               modify (set_generators
                         (alter (fun _ => mkGenerator (g_gid g) n false) r)) >>
               modify (set_all_tasks
                         (fun ts => ts ++ [mkTask (g_gid g) false false])) >>
               ret (Some t)
           end
  | None => ret None
  end.

(** [generator.aclose()]. *)
Definition aclose (r : nat) : M unit :=
  modify (set_generators
            (alter (fun g => mkGenerator (g_gid g) (g_pending g) true) r)).

(** [task.cancel()] on every task of [asyncio.all_tasks()] (the tasks that
    are not done) whose name is [g]. *)
Definition cancel_task (g : string) (t : Task) : Task :=
  if negb (t_done t) && String.eqb (t_name t) g
  then mkTask (t_name t) true (t_done t)
  else t.

Definition cancel_tasks_named (g : string) : M unit :=
  modify (set_all_tasks (fmap (cancel_task g))).

(** [loop.create_task(coro, name=n)]. *)
Definition create_task (n : string) : M unit :=
  modify (set_all_tasks (fun ts => ts ++ [mkTask n false false])).

(** Modelled from the spec: [bot.respond(target, text, mode="reply")] (the
    core [Bot]) sends the text as a reply to the target; the channel may
    refuse. *)
Definition bot_respond (sent : res nat) (target : nat) (text : string)
    : M unit :=
  match sent with
  | Exc e => raise e
  | Val _ => emit (EvRespond target text ModeReply)
  end.

(** Modelled from the spec: [Context.respond(text, mode=...)] (module
    [command]) sends or edits the active notification and keeps the message
    as the context's response.  On [self.context] it fails when no context
    is installed. *)
Definition ctx_respond (sent : res nat) (text : string) (mode : RespondMode)
    : M unit :=
  let* s := get in
  match context s with
  | None => raise AttributeError
  | Some c =>
      match sent with
      | Exc e => raise e
      | Val r =>
          emit (EvCtxRespond (msg c) text mode) >>
          modify (set_context (Some (mkContext (msg c) (Some r))))
      end
  end.

(** ** Lifecycle handlers *)

(** [onDownloadComplete] holds the lock only for parts of its body, so other
    coroutines run between those parts.  The handler is therefore a machine:
    a program point per suspension, and one atomic step from each. *)
Inductive CPc :=
| CRefresh (g : string)
| CClassify (g : string) (file : Download)
| CMegaDrop (g : string) (file : Download)
| CDecrypt (g : string) (file : Download)
| CMegaRegister (g : string) (file : Download)
| CFileRegister (g : string) (file : Download)
| CFolderCreate (g : string) (file : Download)
| CFolderRegister (g : string) (file : Download) (folderId : string) (r : nat)
| CFolderNext (g : string) (file : Download) (folderId : string) (r : nat)
| CFolderAwait (g : string) (file : Download) (folderId : string) (r : nat)
    (t : nat)
| CFolderIncr (g : string) (file : Download) (folderId : string) (r : nat)
| CFolderFinish (g : string) (file : Download) (folderId : string)
| CFolderNotify (g : string) (file : Download) (folderId : string)
| CInaccessible (g : string) (file : Download)
| CEpilogue (file : Download)
| CDone.

(** [self.mega.remove(g)] and [self.cancelled.remove(g)]. *)
Definition mega_remove (g : string) : M unit :=
  fun s => if bool_decide (g ∈ mega s)
           then (Val tt, set_mega (fun m => m ∖ {[g]}) s)
           else (Exc (KeyError g), s).

Definition cancelled_remove (g : string) : M unit :=
  fun s => if bool_decide (g ∈ cancelled s)
           then (Val tt, set_cancelled (fun m => m ∖ {[g]}) s)
           else (Exc (KeyError g), s).

(** [self.uploads[g]["counter"] += 1]. *)
Definition incr_counter (g : string) : M unit :=
  fun s => match uploads s !! g with
           | Some (UFolder r c) =>
               (Val tt, set_uploads (insert g (UFolder r (S c))) s)
           | Some (UFile _) => (Exc TypeError, s)
           | None => (Exc (KeyError g), s)
           end.

(** [await task] for a task of the folder sequence.  A task that was
    cancelled raises CancelledError in the awaiting handler; otherwise the
    world says whether it has finished, failed, or is still running. *)
Inductive Awaited := TaskFinished | TaskCancelled | TaskRunning.

Definition await_task (outcome : option (res unit)) (t : nat) : M Awaited :=
  let* s := get in
  match all_tasks s !! t with
  | None => raise OtherError
  | Some task =>
      if t_cancelled task then
        modify (set_all_tasks (alter (fun k => mkTask (t_name k) true true) t)) >>
        ret TaskCancelled
      else
        match outcome with
        | None => ret TaskRunning
        | Some (Val _) =>
            modify (set_all_tasks
                      (alter (fun k => mkTask (t_name k) false true) t)) >>
            ret TaskFinished
        | Some (Exc e) =>
            modify (set_all_tasks
                      (alter (fun k => mkTask (t_name k) false true) t)) >>
            raise e
        end
  end.

(** One step of [onDownloadComplete].  [outcome] is only read by the step
    that awaits a folder task. *)
Definition complete_step (w : World) (outcome : option (res unit)) (pc : CPc)
    : M CPc :=
  match pc with
  | CRefresh g =>
      let* d := getDownload w g in
      modify (set_downloads (insert g d)) >>
      if metadata d then del_download g >> ret CDone
      else ret (CClassify g d)
  | CClassify g file =>
      let* s := get in
      if is_file w file then
        if bool_decide (g ∈ mega s) then ret (CMegaDrop g file)
        else ret (CFileRegister g file)
      else if is_dir w file then ret (CFolderCreate g file)
      else ret (CInaccessible g file)
  | CMegaDrop g file =>
      del_download g >> ret (CDecrypt g file)
  | CDecrypt g file =>
      emit (EvDecrypt g) >> ret (CMegaRegister g file)
  | CMegaRegister g file =>
      mega_remove g >>
      let* d := lift (tellStatus (engine w) (gid file)) in
      modify (set_downloads (insert g d)) >>
      let* h := uploadFile w d in
      modify (set_uploads (insert g (UFile h))) >>
      ret (CEpilogue file)
  | CFileRegister g file =>
      let* h := uploadFile w file in
      modify (set_uploads (insert g (UFile h))) >>
      ret (CEpilogue file)
  | CFolderCreate g file =>
      let* folderId := createFolder w (name file) in
      let* r := uploadFolder w g in
      ret (CFolderRegister g file folderId r)
  | CFolderRegister g file folderId r =>
      modify (set_uploads (insert g (UFolder r 0))) >>
      ret (CFolderNext g file folderId r)
  | CFolderNext g file folderId r =>
      let* nxt := anext r in
      match nxt with
      | Some t => ret (CFolderAwait g file folderId r t)
      | None => ret (CFolderFinish g file folderId)
      end
  | CFolderAwait g file folderId r t =>
      let* a := await_task outcome t in
      match a with
      | TaskRunning => ret (CFolderAwait g file folderId r t)
      | TaskCancelled => ret (CEpilogue file)
      | TaskFinished => ret (CFolderIncr g file folderId r)
      end
  | CFolderIncr g file folderId r =>
      incr_counter g >> ret (CFolderNext g file folderId r)
  | CFolderFinish g file folderId =>
      del_upload g >> del_download g >> ret (CFolderNotify g file folderId)
  | CFolderNotify g file folderId =>
      let* s := get in
      match count s with
      | O =>
          let* r := context_response in
          match r with
          | None => raise AttributeError
          | Some m =>
              try_finally
                (bot_respond (channel w) m (folderLink s file folderId))
                (emit (EvDelete m)) >>
              modify (set_context None) >>
              ret (CEpilogue file)
          end
      | S _ =>
          ctx_respond (channel w) (folderLink s file folderId) ModeReply >>
          ret (CEpilogue file)
      end
  | CInaccessible g file =>
      del_download g >> ret (CEpilogue file)
  | CEpilogue file =>
      if bittorrent file then
        create_task ("Seed-" +:+ gid file) >>
        emit (EvSpawnSeed ("Seed-" +:+ gid file)) >>
        ret CDone
      else ret CDone
  | CDone => ret CDone
  end.

(** [onDownloadError]. *)
Definition onDownloadError (w : World) (g : string) : M unit :=
  let* file := getDownload w g in
  let* m := context_msg in
  bot_respond (channel w) m ("`" +:+ name file +:+ "`
Status: **" +:+ capitalize (status file) +:+ "**
Error: __" +:+ error_message file +:+ "__
Code: **" +:+ error_code file +:+ "**") >>
  del_download (gid file) >>
  checkDelete.

(** ** The progress reporter *)

(** The result text of [uploadProgress]; a missing link prints as None. *)
Definition fileLink (s : Server) (file : MediaFileUpload) (response : Response)
    (file_size : Z) : string :=
  let mirrorLink := default "None" (r_webContentLink response) in
  let base := "**GoogleDrive Link**: [" +:+ u_name file +:+ "](" +:+
              mirrorLink +:+ ") (__" +:+ human file_size +:+ "__)" in
  match index_link s with
  | Some il => base +:+ "

__IndexLink__: [Here](" +:+ join il (quote (u_name file)) +:+ ")."
  | None => base
  end.

(** [uploadProgress]. *)
Definition uploadProgress (w : World) (file : MediaFileUpload)
    : M (option string * bool) :=
  let* sr := lift (next_chunk w file) in
  let* progress :=
    match fst sr with
    | Some st => let* p := lift (render_upload file st (clock w)) in ret (Some p)
    | None => ret None
    end in
  match snd sr, progress with
  | None, Some p => ret (Some p, false)
  | None, None => raise AttributeError
  | Some response, _ =>
      let* file_size :=
        match r_size response with
        | Some n => ret n
        | None => raise TypeError
        end in
      let* s := get in
      let* m := context_msg in
      bot_respond (channel w) m (fileLink s file response file_size) >>
      del_upload (u_gid file) >>
      del_download (u_gid file) >>
      checkDelete >>
      ret (None, true)
  end.

(** Modelled from the spec: the properties of [util.aria2.Download] that
    [checkProgress] tests read the status of the record. *)
Definition failed (d : Download) : bool := String.eqb (status d) "error".
Definition paused (d : Download) : bool := String.eqb (status d) "paused".
Definition complete (d : Download) : bool := String.eqb (status d) "complete".
Definition removed (d : Download) : bool := String.eqb (status d) "removed".

(** The body of the [for] loop of [checkProgress] over a snapshot of the
    records; [acc] is [progress_string].  [file.update()] refreshes the
    record the registry holds.  The snapshot is taken in the order of the
    map, which is not the insertion order of a Python dict; only the order
    of the blocks in the text depends on it. *)
Fixpoint progress_loop (w : World) (files : list Download) (acc : string)
    : M string :=
  match files with
  | [] => ret acc
  | file0 :: rest =>
      match tellStatus (engine w) (gid file0) with
      | Exc (Aria2rpcException _) => progress_loop w rest acc
      | Exc e => raise e
      | Val file =>
          modify (set_downloads (alter (fun _ => file) (gid file0))) >>
          if failed file || paused file || (complete file && metadata file)
             || removed file
          then progress_loop w rest acc
          else if complete file && negb (metadata file) then
            if is_dir w file then
              let* s := get in
              match uploads s !! gid file with
              | None => raise (KeyError (gid file))
              | Some (UFile _) => raise TypeError
              | Some (UFolder _ counter) =>
                  let* text := lift (render_folder file counter) in
                  progress_loop w rest (acc +:+ text)
              end
            else if is_file w file then
              let* s := get in
              if bool_decide (gid file ∈ mega s) then
                let* text := lift (render_decrypt w file) in
                progress_loop w rest (acc +:+ text)
              else
                match uploads s !! gid file with
                | None => raise (KeyError (gid file))
                | Some (UFolder _ _) => raise AttributeError
                | Some (UFile f) =>
                    let* pd := uploadProgress w f in
                    if snd pd then progress_loop w rest acc
                    else progress_loop w rest (acc +:+ default "" (fst pd))
                end
            else progress_loop w rest acc
          else progress_loop w rest (acc +:+ render_download file)
      end
  end.

Definition checkProgress_once (w : World) : M string :=
  let* s := get in
  progress_loop w (snd <$> map_to_list (downloads s)) "".

(** The [@retry] decorator: up to [n] attempts, retrying on KeyError.  The
    attempts of one call run one after the other on the server as the
    previous attempt left it: the waits of the decorator, during which
    other coroutines run, are not part of a call. *)
Fixpoint retry_KeyError {A} (n : nat) (c : M A) : M A :=
  match n with
  | O => raise RetryError
  | S n' =>
      try_except c (fun e => match e with
                             | KeyError _ => Some (retry_KeyError n' c)
                             | _ => None
                             end)
  end.

(** [checkProgress]. *)
Definition checkProgress (w : World) : M string :=
  retry_KeyError 5 (checkProgress_once w).

(** The body of the cancellation loop of [updateProgress] for one gid. *)
Definition unwind (w : World) (g : string) : M unit :=
  let* s := get in
  let file := downloads s !! g in
  match file with
  | Some _ => modify (set_downloads (delete g))
  | None => ret tt
  end >>
  match file with
  | Some f =>
      if is_file w f && bool_decide (is_Some (uploads s !! g)) then
        del_upload g
      else if is_dir w f && bool_decide (is_Some (uploads s !! g)) then
        cancel_tasks_named g >>
        match uploads s !! g with
        | Some (UFolder r _) => aclose r
        | Some (UFile _) => raise TypeError
        | None => raise (KeyError g)
        end >>
        del_upload g
      else ret tt
  | None => ret tt
  end >>
  cancelled_remove g >>
  checkDelete.

Fixpoint unwind_each (w : World) (gs : list string) : M unit :=
  match gs with
  | [] => ret tt
  | g :: rest => unwind w g >> unwind_each w rest
  end.

(** [for gid in self.cancelled.copy(): ...]. *)
Definition unwind_all (w : World) : M unit :=
  let* s := get in unwind_each w (elements (cancelled s)).

(** The test guarding the send.  Times are in microseconds, the resolution
    of [datetime]; Python reads the test as
    [last is None or (elapsed >= 5 and progress != "")]. *)
Definition gate (last : option Z) (now : Z) (progress : string) : bool :=
  match last with
  | None => true
  | Some l => (5000000 <=? now - l) && negb (String.eqb progress "")
  end.

(** The rate-limited send of [updateProgress]; returns the new
    [last_update_time]. *)
Definition notify (w : World) (last : option Z) (progress : string)
    : M (option Z) :=
  if gate last (clock w) progress then
    try_except
      (let* s := get in
       match context s with
       | Some _ => ctx_respond (channel w) progress ModeEdit
       | None => ret tt
       end)
      (fun e => match e with
                | MessageNotModified => Some (ret tt)
                | FloodWait x => Some (emit (EvSleep x))
                | _ => None
                end) >>
    ret (Some (clock w))
  else ret last.

(** One iteration of the [while] loop of [updateProgress].  [w] is what the
    cancellation pass and [checkProgress] observe; [gate_world] is what the
    loop observes once [checkProgress] has returned, so its clock is the
    [datetime.now()] read before the test of the send. *)
Definition updateProgress_tick (w gate_world : World) (last : option Z)
    : M (option Z) :=
  unwind_all w >>
  fun s =>
    match checkProgress w s with
    | (Exc HttpError, s') => (Val last, s')
    | (Exc e, s') => (Exc e, s')
    | (Val progress, s') => notify gate_world last progress s'
    end.

(** [updateProgress], two worlds per iteration. *)
Fixpoint updateProgress (ws : list (World * World)) (last : option Z)
    : M unit :=
  match ws with
  | [] => ret tt
  | (w, gate_world) :: rest =>
      let* s := get in
      if stopping s then ret tt
      else let* l := updateProgress_tick w gate_world last in
           updateProgress rest l
  end.

(** ** The facade: class [Aria2] *)

(** [_formatSE]. *)
Definition _formatSE (err : string) : M string :=
  let* m := lift (literal_eval_message (strip (split2_last err))) in
  ret ("__" +:+ m +:+ "__").

(** The first argument of [addDownload]: a string, bytes, or anything else
    (given by its type name). *)
Inductive Source :=
| SStr (uri : string)
| SBytes (torrent : list Byte.byte)
| SOther (type_name : string).

(** The lock-protected tail of [addDownload]. *)
Definition install_context (ctx : Context) (g : option string)
    (mega_flag : bool) : M (option string) :=
  (let* s := get in
   match context s with
   | Some c => match response c with
               | Some r => emit (EvDelete r)
               | None => ret tt
               end
   | None => ret tt
   end) >>
  modify (set_context (Some ctx)) >>
  match g with
  | Some (String c r) =>
      (if mega_flag then modify (set_mega (fun m => m ∪ {[String c r]}))
       else ret tt) >>
      ret (Some (String c r))
  | _ => ret None
  end.

(** [addDownload]. *)
Definition addDownload (w : World) (types : Source) (ctx : Context)
    (mega_flag : bool) : M (option string) :=
  match types with
  | SStr uri =>
      emit (EvAddUri uri) >>
      match addUri (engine w) uri with
      | Exc (Aria2rpcException e) => let* m := _formatSE e in ret (Some m)
      | Exc e => raise e
      | Val g => install_context ctx (Some g) mega_flag
      end
  | SBytes torrent =>
      match utf8_decode torrent with
      | None => raise UnicodeDecodeError
      | Some text =>
          emit (EvAddTorrent text) >>
          lift (addTorrent (engine w) text) >>
          install_context ctx None mega_flag
      end
  | SOther type_name =>
      ret (Some ("__Unknown types of " +:+ type_name +:+ "__"))
  end.

(** [cancelMirror]. *)
Definition cancelMirror (w : World) (g : string) : M (option string) :=
  match tellStatusFields (engine w) g with
  | Exc (Aria2rpcException e) =>
      let* m := _formatSE e in
      if contains g m then ret (Some (replace g ("'" +:+ g +:+ "'") m))
      else ret (Some m)
  | Exc e => raise e
  | Val doc =>
      let status := sd_status doc in
      let metadata := truthy (sd_followedBy doc) in
      if String.eqb status "active" then
        emit (EvForcePause g) >> lift (forcePause (engine w) g) >>
        emit (EvForceRemove g) >> lift (forceRemove (engine w) g) >>
        modify (set_cancelled (fun c => c ∪ {[g]})) >>
        ret None
      else if String.eqb status "complete" && metadata then
        ret (Some "__GID belongs to finished Metadata, can't be abort.__")
      else
        modify (set_cancelled (fun c => c ∪ {[g]})) >>
        ret None
  end.

End Plugin.

(** ** The decrypt relay of [onDownloadComplete] *)

Module Relay.

(** Modelled from the spec: the decryption backend ([aes.decrypt] of the
    Mega plugin) is a streaming transform.  The object carries its position
    in the stream; decrypting a text in two pieces gives the two pieces of
    its decryption.  [encrypt] is the one-shot transform that produced the
    ciphertext, the reference for a known pair. *)
Record StreamCipher := mkStreamCipher {
  cstate : Type;
  decrypt : cstate -> list Byte.byte -> list Byte.byte * cstate;
  encrypt : cstate -> list Byte.byte -> list Byte.byte;
  decrypt_app : forall s a b,
    decrypt s (a ++ b) =
    (fst (decrypt s a) ++ fst (decrypt (snd (decrypt s a)) b),
     snd (decrypt (snd (decrypt s a)) b));
  decrypt_nil : forall s, fst (decrypt s []) = [];
  decrypt_encrypt : forall s p, fst (decrypt s (encrypt s p)) = p
}.

(** [CHUNK_SIZE = 50 * 1024 * 1024]. *)
Definition CHUNK_SIZE : N := 50 * 1024 * 1024.

(** [Reader(temp, chunk_size=size)]: successive blocks of [size] bytes, the
    last one shorter; [room] is what the current block can still take and
    [cur] holds it in reverse. *)
Fixpoint reader_from (size room : N) (cur : list Byte.byte)
    (data : list Byte.byte) : list (list Byte.byte) :=
  match data with
  | [] => match cur with
          | [] => []
          | _ => [rev cur]
          end
  | b :: rest =>
      if (room =? 0)%N
      then rev cur :: reader_from size (size - 1) [b] rest
      else reader_from size (room - 1) (b :: cur) rest
  end.

Definition reader (size : N) (data : list Byte.byte) : list (list Byte.byte) :=
  reader_from size size [] data.

Section WithCipher.

Variable C : StreamCipher.

(** The loop [async for chunk in reader: chunk = aes.decrypt(chunk);
    await writer(chunk); await f.fsync()]: [out] is the output file. *)
Fixpoint relay_chunks (aes : cstate C) (chunks : list (list Byte.byte))
    (out : list Byte.byte) : list Byte.byte * cstate C :=
  match chunks with
  | [] => (out, aes)
  | chunk :: rest =>
      let (plain, aes') := decrypt C aes chunk in
      relay_chunks aes' rest (out ++ plain)
  end.

(** The relay as the handler runs it on the downloaded file. *)
Definition relay (aes : cstate C) (ciphertext : list Byte.byte)
    : list Byte.byte :=
  fst (relay_chunks aes (reader CHUNK_SIZE ciphertext) []).

End WithCipher.

(** A cipher of the expected shape: the XOR of the text with a keystream
    read at the position of the object. *)
Definition xor_byte (a b : Byte.byte) : Byte.byte :=
  match Byte.to_bits a, Byte.to_bits b with
  | (a0, (a1, (a2, (a3, (a4, (a5, (a6, a7))))))),
    (b0, (b1, (b2, (b3, (b4, (b5, (b6, b7))))))) =>
      Byte.of_bits (xorb a0 b0, (xorb a1 b1, (xorb a2 b2, (xorb a3 b3,
                   (xorb a4 b4, (xorb a5 b5, (xorb a6 b6, xorb a7 b7)))))))
  end.

Fixpoint xor_stream (keystream : nat -> Byte.byte) (pos : nat)
    (text : list Byte.byte) : list Byte.byte * nat :=
  match text with
  | [] => ([], pos)
  | b :: rest =>
      let (out, pos') := xor_stream keystream (S pos) rest in
      (xor_byte b (keystream pos) :: out, pos')
  end.

(** The XOR cipher is a streaming cipher. *)
Lemma xor_byte_involutive b k : xor_byte (xor_byte b k) k = b.
Proof.
  unfold xor_byte.
  destruct (Byte.to_bits b) as (b0 & b1 & b2 & b3 & b4 & b5 & b6 & b7) eqn:Eb.
  destruct (Byte.to_bits k) as (k0 & k1 & k2 & k3 & k4 & k5 & k6 & k7) eqn:Ek.
  rewrite Byte.to_bits_of_bits.
  rewrite <- (Byte.of_bits_to_bits b), Eb.
  repeat rewrite Bool.xorb_assoc, Bool.xorb_nilpotent, Bool.xorb_false_r.
  reflexivity.
Qed.

Lemma xor_stream_app ks pos a b :
  xor_stream ks pos (a ++ b) =
  (fst (xor_stream ks pos a) ++
   fst (xor_stream ks (snd (xor_stream ks pos a)) b),
   snd (xor_stream ks (snd (xor_stream ks pos a)) b)).
Proof.
  revert pos. induction a as [|x a IH]; intros pos; cbn.
  - destruct (xor_stream ks pos b); reflexivity.
  - rewrite IH. destruct (xor_stream ks (S pos) a) as [out pos'].
    cbn. destruct (xor_stream ks pos' b). reflexivity.
Qed.

Lemma xor_stream_involutive ks pos text :
  fst (xor_stream ks pos (fst (xor_stream ks pos text))) = text.
Proof.
  revert pos. induction text as [|x text IH]; intros pos; cbn.
  - reflexivity.
  - specialize (IH (S pos)).
    destruct (xor_stream ks (S pos) text) as [out pos']. cbn in *.
    destruct (xor_stream ks (S pos) out) as [out2 pos2]. cbn in *.
    rewrite xor_byte_involutive, IH. reflexivity.
Qed.

(** The XOR cipher over a keystream, as an instance of the interface. *)
Definition xor_cipher (ks : nat -> Byte.byte) : StreamCipher :=
  mkStreamCipher nat (xor_stream ks)
    (fun pos text => fst (xor_stream ks pos text))
    (xor_stream_app ks)
    (fun pos => eq_refl)
    (xor_stream_involutive ks).

End Relay.

(** ** The vocabulary of the properties *)

(** The fields [checkDelete] and the senders never touch. *)
Definition same_registry (s s' : Server) : Prop :=
  cancelled s' = cancelled s /\ downloads s' = downloads s /\
  uploads s' = uploads s /\ mega s' = mega s /\
  generators s' = generators s /\ all_tasks s' = all_tasks s.

(** The engine reports a finished download that another one followed: the
    status is complete and followedBy lists at least one gid. *)
Definition finished_metadata (doc : StatusDoc) : Prop :=
  sd_status doc = "complete" /\ exists x l, sd_followedBy doc = Some (x :: l).

(** From [s] to [s'] the gid was marked, after these engine calls; the
    records, the upload state and the context are as they were. *)
Definition marked_after (g : string) (calls : list Event) (s s' : Server)
    : Prop :=
  g ∈ cancelled s' /\ cancelled s' = cancelled s ∪ {[g]} /\
  downloads s' = downloads s /\ uploads s' = uploads s /\
  context s' = context s /\ trace s' = trace s ++ calls.

(** From [s] to [s'] these engine calls were made and nothing was marked. *)
Definition unmarked_after (calls : list Event) (s s' : Server) : Prop :=
  cancelled s' = cancelled s /\ downloads s' = downloads s /\
  uploads s' = uploads s /\ context s' = context s /\
  trace s' = trace s ++ calls.

(** The message a server keeps as its active notification. *)
Definition standing (s : Server) : option nat :=
  match context s with
  | Some c => response c
  | None => None
  end.

(** After a step from [s] to [s']: when the registry is empty, a
    notification that stood in [s] has been deleted, last of all, and the
    context is cleared. *)
Definition retired (s s' : Server) : Prop :=
  count s' = 0%nat ->
  forall r, standing s = Some r ->
            context s' = None /\ last (trace s') = Some (EvDelete r).

(** A body that leaves the context alone. *)
Definition keeps_context {A} (c : M A) : Prop :=
  forall s v s', c s = (v, s') -> context s' = context s.

(** The tick sent or edited the notification with this text. *)
Definition emitted (w : World) (last : option Z) (progress : string)
    (s : Server) : Prop :=
  exists m, trace (snd (notify w last progress s)) =
            trace s ++ [EvCtxRespond m progress ModeEdit].

(** The condition of the specification: a non-empty text, and no earlier
    send or five seconds since the last one. *)
Definition claimed_gate (last : option Z) (now : Z) (progress : string) : Prop :=
  progress <> "" /\
  (last = None \/ exists l, last = Some l /\ 5000000 <= now - l).

(** Texts sent to the chat. *)
Definition is_notice (e : Event) : bool :=
  match e with
  | EvRespond _ _ _ | EvCtxRespond _ _ _ => true
  | _ => false
  end.

(** From [s] to [s'] nothing was sent to the chat. *)
Definition quiet (s s' : Server) : Prop :=
  exists evs, trace s' = trace s ++ evs /\
              Forall (fun e => is_notice e = false) evs.





(** Every gid with upload state has a download record. *)
Definition uploads_tracked (s : Server) : Prop :=
  forall g, is_Some (uploads s !! g) -> is_Some (downloads s !! g).

(** ** Runs of a handler *)

Section Execution.

Variable quote : string -> string.


End Execution.

(** ** The event loop *)

(** The server together with the [onDownloadComplete] handlers in flight,
    each at its program point.  No coroutine holds the lock between two
    actions. *)
Record System := mkSystem {
  server : Server;
  handlers : list CPc
}.

(** What the event loop can run next.  An iteration of the progress loop
    comes with the loop's [last_update_time] and with the world it meets
    at its gate. *)
Inductive Action :=
| ActAdd (types : Source) (ctx : Context) (mega_flag : bool)
| ActStart (g : string)
| ActComplete (g : string)
| ActError (g : string)
| ActHandler (i : nat) (outcome : option (res unit))
| ActCancel (g : string)
| ActTick (last : option Z) (gate_world : World).

Section Scheduler.

Variable quote : string -> string.
Variable human : Z -> string.
Variable render_upload : MediaFileUpload -> UploadStatus -> Z -> res string.
Variable render_folder : Download -> nat -> res string.
Variable render_decrypt : World -> Download -> res string.
Variable render_download : Download -> string.
Variable literal_eval_message : string -> res string.
Variable utf8_decode : list Byte.byte -> option string.

(** One action, in the world it meets.  A coroutine that raises ends; what
    it wrote stays.  A notification of completion starts a handler, which
    then advances one step per [ActHandler]. *)
Definition act (w : World) (a : Action) (sys : System) : System :=
  match a with
  | ActAdd types ctx mega_flag =>
      mkSystem (snd (addDownload literal_eval_message utf8_decode w types ctx
                       mega_flag (server sys)))
        (handlers sys)
  | ActStart g =>
      mkSystem (snd (onDownloadStart w g (server sys))) (handlers sys)
  | ActComplete g =>
      mkSystem (server sys) (handlers sys ++ [CRefresh g])
  | ActError g =>
      mkSystem (snd (onDownloadError w g (server sys))) (handlers sys)
  | ActHandler i outcome =>
      match handlers sys !! i with
      | None => sys
      | Some pc =>
          match complete_step quote w outcome pc (server sys) with
          | (Val pc', s') => mkSystem s' (<[i := pc']> (handlers sys))
          | (Exc _, s') => mkSystem s' (<[i := CDone]> (handlers sys))
          end
      end
  | ActCancel g =>
      mkSystem (snd (cancelMirror literal_eval_message w g (server sys)))
        (handlers sys)
  | ActTick last gate_world =>
      mkSystem
        (snd (updateProgress_tick quote human render_upload render_folder
                render_decrypt render_download w gate_world last (server sys)))
        (handlers sys)
  end.

Fixpoint schedule (steps : list (World * Action)) (sys : System) : System :=
  match steps with
  | [] => sys
  | (w, a) :: rest => schedule rest (act w a sys)
  end.

End Scheduler.

(** ** Shutting down: [Aria2.on_stop] *)

Definition set_stopping (b : bool) (s : Server) : Server :=
  mkServer (cancelled s) (downloads s) (uploads s) (context s) (mega s)
    (index_link s) b (generators s) (all_tasks s) (trace s).

(** The body of [on_stop] on a plugin that has its [_ws]; [shutdown] and
    [close] are the answers of [client.shutdown()] and [client.close()]. *)
Definition stop_server (shutdown close : res unit) : M unit :=
  modify (set_stopping true) >>
  lift shutdown >>
  lift close >>
  modify (set_context None).

(** [on_stop]; [ws] is the attribute [_ws], which is missing when [on_start]
    never created the server. *)
Definition on_stop (shutdown close : res unit) (ws : option Server)
    : res unit * option Server :=
  match ws with
  | Some s => (fst (stop_server shutdown close s),
               Some (snd (stop_server shutdown close s)))
  | None => (Val tt, None)
  end.

(** ** The progress bar of [checkProgress] and [uploadProgress] *)

(** The three characters of the bar: U+25CF, U+25CB and the space.  A
    Python string is a sequence of code points and [len] counts them. *)
Inductive Glyph := Filled | Hollow | Blank.

Definition glyph_eqb (a b : Glyph) : bool :=
  match a, b with
  | Filled, Filled | Hollow, Hollow | Blank, Blank => true
  | _, _ => false
  end.

(** [s * n], empty when [n] is not positive. *)
Definition times (s : list Glyph) (n : Z) : list Glyph :=
  concat (replicate (Z.to_nat n) s).

(** [s.replace(c, "")] for a single character [c]. *)
Definition without (c : Glyph) (s : list Glyph) : list Glyph :=
  List.filter (fun g => negb (glyph_eqb g c)) s.

(** [bullets], for [n = int(round(percent * 10))]. *)
Definition bullets (n : Z) : list Glyph :=
  let b := times [Filled] n ++ [Hollow] in
  if 10 <? Z.of_nat (length b) then without Hollow b else b.

(** [space]. *)
Definition space (b : list Glyph) : list Glyph :=
  times [Blank; Blank; Blank; Blank] (10 - Z.of_nat (length b)).

(** [bullets + space], what is printed between the brackets. *)
Definition progress_bar (n : Z) : list Glyph :=
  bullets n ++ space (bullets n).

(** ** More vocabulary *)

(** A body all of whose runs, returning or raising, relate the server it
    starts on to the server it leaves. *)
Definition respects {A} (R : relation Server) (c : M A) : Prop :=
  forall s v s', c s = (v, s') -> R s s'.

(** From [s] to [s'] the trace grew by events that satisfy [P]. *)
Definition emitting (P : Event -> bool) (s s' : Server) : Prop :=
  exists evs, trace s' = trace s ++ evs /\ Forall (fun e => P e = true) evs.

(** An invariant carried from [s] to [s']. *)
Definition keeping (I : Server -> Prop) (s s' : Server) : Prop :=
  I s -> I s'.

(** The calls a tick makes on its own account when it does not edit: the
    link of a finished upload, sent as a reply, and the deletion of the
    notification. *)
Definition link_or_delete (e : Event) : bool :=
  match e with
  | EvRespond _ _ ModeReply | EvDelete _ => true
  | _ => false
  end.

(** The downloads [checkProgress] passes over: failed, paused, removed, or
    finished metadata. *)
Definition skipped (d : Download) : bool :=
  failed d || paused d || (complete d && metadata d) || removed d.

(** A record whose refresh the engine answers or rejects, and which is not
    a finished download waiting for or in its upload. *)
Definition downloading (w : World) (d : Download) : Prop :=
  match tellStatus (engine w) (gid d) with
  | Val d' => complete d' = true -> metadata d' = true
  | Exc e => exists t, e = Aria2rpcException t
  end.

(** No colon in the text. *)
Fixpoint no_colon (s : string) : bool :=
  match s with
  | EmptyString => true
  | String c r => negb (Ascii.eqb c ":") && no_colon r
  end.

Section Alone.

Variable quote : string -> string.
Variable render_download : Download -> string.

(** The handler running on its own, one world and one task outcome per
    step. *)
Fixpoint run_handler (steps : list (World * option (res unit))) (pc : CPc)
    : M CPc :=
  match steps with
  | [] => ret pc
  | (w, outcome) :: rest =>
      let* pc' := complete_step quote w outcome pc in
      run_handler rest pc'
  end.

(** The block of the progress text for a record that is still
    downloading, after its refresh. *)
Definition block (w : World) (d : Download) : string :=
  match tellStatus (engine w) (gid d) with
  | Val d' => if skipped d' then "" else render_download d'
  | Exc _ => ""
  end.

Fixpoint blocks (w : World) (files : list Download) : string :=
  match files with
  | [] => ""
  | d :: rest => block w d +:+ blocks w rest
  end.

End Alone.

(** ** Scenarios

    Concrete collaborators on which the properties are run.  The text
    helpers from outside the plugin are replaced by stand-ins. *)

Definition demo_quote (s : string) : string := s.
Definition demo_human (n : Z) : string := "1.0 KiB".
Definition demo_render_upload (f : MediaFileUpload) (st : UploadStatus) (now : Z)
    : res string := Val ("`" +:+ u_name f +:+ "` Uploading").
Definition demo_render_folder (d : Download) (n : nat) : res string :=
  Val ("`" +:+ name d +:+ "` ComputingFolder").
Definition demo_render_decrypt (w : World) (d : Download) : res string :=
  Val ("`" +:+ name d +:+ "` Decrypting").
Definition demo_render_download (d : Download) : string :=
  "`" +:+ name d +:+ "` Downloading".
Definition demo_literal_eval (s : string) : res string :=
  if String.eqb s "{'error': {'code': 1, 'message': 'No URI to download.'}}"
  then Val "No URI to download."
  else Exc ValueError.
Definition demo_utf8 (b : list Byte.byte) : option string :=
  Some (string_of_list_byte b).

Definition demo_gid : string := "2089b05ecca3d829".

Definition demo_file : Download :=
  mkDownload demo_gid "ubuntu.iso" "complete" false false
    "/downloads/ubuntu.iso" "/downloads" "" "" "0".

Definition demo_folder : Download :=
  mkDownload demo_gid "album" "complete" false true
    "/downloads/album" "/downloads" "c12fe1c06bba254a9dc9f519b335aa7c1367a88a"
    "" "0".

Definition demo_metadata : Download :=
  mkDownload demo_gid "[METADATA]album" "complete" true true
    "/downloads/[METADATA]album" "/downloads"
    "c12fe1c06bba254a9dc9f519b335aa7c1367a88a" "" "0".

Definition demo_rejection : string :=
  "aria2: rpc: {'error': {'code': 1, 'message': 'No URI to download.'}}".

(** An engine that knows one download and accepts every request. *)
Definition accepting_engine (d : Download) (doc : StatusDoc) : Engine :=
  mkEngine (fun _ => Val d) (fun _ => Val doc)
    (fun _ => Val demo_gid) (fun _ => Val demo_gid)
    (fun _ => Val tt) (fun _ => Val tt).

(** An engine that rejects every request with a structured error. *)
Definition rejecting_engine : Engine :=
  mkEngine (fun _ => Exc (Aria2rpcException demo_rejection))
    (fun _ => Exc (Aria2rpcException demo_rejection))
    (fun _ => Exc (Aria2rpcException demo_rejection))
    (fun _ => Exc (Aria2rpcException demo_rejection))
    (fun _ => Exc (Aria2rpcException demo_rejection))
    (fun _ => Exc (Aria2rpcException demo_rejection)).

Definition demo_response : Response :=
  mkResponse (Some 1024) (Some "https://drive.example/uc?id=1").

(** A world in which every path has the given kind, the chat accepts every
    send, and the drive answers the next chunk as given. *)
Definition demo_world (e : Engine) (kind : PathKind)
    (chunk : option UploadStatus * option Response) (now : Z) : World :=
  mkWorld e (fun _ => Val chunk) (fun _ => kind) now (Val 7%nat)
    "1AbCdEfolder" 2.

Definition demo_context : Context := mkContext 1 (Some 2%nat).

Definition demo_handle : MediaFileUpload := mkUpload demo_gid "ubuntu.iso" 0.

(** A server that tracks one finished file download and its upload. *)
Definition uploading_server : Server :=
  mkServer ∅ {[demo_gid := demo_file]} {[demo_gid := UFile demo_handle]}
    (Some demo_context) ∅ None false [] [] [].

Definition demo_torrent : list Byte.byte :=
  list_byte_of_string "d8:announce35:udp://tracker.example:6969/announcee".

(** A server that tracks one download and keeps a notification. *)
Definition tracking_server (d : Download) : Server :=
  mkServer ∅ {[demo_gid := d]} ∅ (Some demo_context) ∅ None false [] [] [].

(** A server on which the folder upload of [demo_gid] is under way: one of
    two files is uploaded, the task of the second is running, and the gid
    has just been marked by [cancelMirror]. *)
Definition folder_server : Server :=
  mkServer {[demo_gid]} {[demo_gid := demo_folder]}
    {[demo_gid := UFolder 0 1]} (Some demo_context) ∅ None false
    [mkGenerator demo_gid 0 false]
    [mkTask demo_gid false true; mkTask demo_gid false false] [].

(** A keystream for the scenarios. *)
Definition demo_keystream (i : nat) : Byte.byte :=
  nth (i mod 4) [Byte.x5a; Byte.xc3; Byte.x0f; Byte.x99] Byte.x00.

Definition demo_plaintext : list Byte.byte :=
  list_byte_of_string "attack at dawn".

(** The actions of a download of one file that the user cancels just as it
    completes: the handler has refreshed the record and is classifying the
    path when the progress loop unwinds the gid; the handler then registers
    the upload. *)
Definition cancel_at_completion : list (World * Action) :=
  let active :=
    demo_world (accepting_engine
                  (mkDownload demo_gid "ubuntu.iso" "active" false false
                     "/downloads/ubuntu.iso" "/downloads" "" "" "0")
                  (mkStatusDoc "active" None))
      KMissing (None, None) in
  let done :=
    demo_world (accepting_engine demo_file (mkStatusDoc "complete" None))
      KFile (None, None) in
  [ (active 0, ActAdd (SStr "http://example.org/ubuntu.iso") demo_context false);
    (active 100000, ActStart demo_gid);
    (active 200000, ActTick None (active 250000));
    (done 9000000, ActComplete demo_gid);
    (done 9000000, ActHandler 0 None);
    (done 9050000, ActCancel demo_gid);
    (done 9100000, ActTick (Some 250000) (done 9120000));
    (done 9150000, ActHandler 0 None);
    (done 9200000, ActHandler 0 None);
    (done 9250000, ActHandler 0 None) ].

Definition demo_schedule : list (World * Action) -> System -> System :=
  schedule demo_quote demo_human demo_render_upload demo_render_folder
    demo_render_decrypt demo_render_download demo_literal_eval demo_utf8.

(** A world in which the paths are directories and a folder has ten
    files. *)
Definition folder_world (now : Z) : World :=
  mkWorld (accepting_engine demo_folder (mkStatusDoc "complete" None))
    (fun _ => Val (None, None)) (fun _ => KDir) now (Val 7%nat)
    "1AbCdEfolder" 10.

(** A folder download completes; its handler uploads three of the ten files
    and awaits the task of the fourth when the progress loop runs. *)
Definition three_of_ten : list (World * Action) :=
  [ (folder_world 0,
     ActAdd (SStr "magnet:?xt=urn:btih:c12fe1c06bba254a9dc9f519b335aa7c1367a88a")
       demo_context false);
    (folder_world 100000, ActStart demo_gid);
    (folder_world 9000000, ActComplete demo_gid);
    (folder_world 9000000, ActHandler 0 None);
    (folder_world 9000000, ActHandler 0 None);
    (folder_world 9000000, ActHandler 0 None);
    (folder_world 9000000, ActHandler 0 None);
    (folder_world 9100000, ActHandler 0 None);
    (folder_world 9100000, ActHandler 0 (Some (Val tt)));
    (folder_world 9100000, ActHandler 0 None);
    (folder_world 9200000, ActHandler 0 None);
    (folder_world 9200000, ActHandler 0 (Some (Val tt)));
    (folder_world 9200000, ActHandler 0 None);
    (folder_world 9300000, ActHandler 0 None);
    (folder_world 9300000, ActHandler 0 (Some (Val tt)));
    (folder_world 9300000, ActHandler 0 None);
    (folder_world 9400000, ActHandler 0 None);
    (folder_world 9500000, ActTick None (folder_world 9550000)) ].

(** The user cancels; the next tick unwinds; the handler resumes. *)
Definition then_cancel : list (World * Action) :=
  [ (folder_world 9600000, ActCancel demo_gid);
    (folder_world 9700000, ActTick (Some 9550000) (folder_world 9750000));
    (folder_world 9800000, ActHandler 0 None);
    (folder_world 9800000, ActHandler 0 None) ].

(** A download in progress. *)
Definition demo_active : Download :=
  mkDownload demo_gid "ubuntu.iso" "active" false false
    "/downloads/ubuntu.iso" "/downloads" "" "" "0".

(** An engine that reports an active download and refuses to pause it. *)
Definition stubborn_engine : Engine :=
  mkEngine (fun _ => Val demo_active)
    (fun _ => Val (mkStatusDoc "active" None))
    (fun _ => Val demo_gid) (fun _ => Val demo_gid)
    (fun _ => Exc (Aria2rpcException demo_rejection))
    (fun _ => Val tt).

(** A world around a finished download of one file. *)
Definition file_world (kind : PathKind) (now : Z) : World :=
  demo_world (accepting_engine demo_file (mkStatusDoc "complete" None))
    kind (None, None) now.

(** A server with a context and nothing tracked. *)
Definition idle_server : Server :=
  set_context (Some demo_context) (init_server None).


(** * Properties *)

(** Unfolding the monad. *)
Tactic Notation "run" :=
  cbv beta iota delta
    [bind ret raise get modify lift emit try_except try_finally].
Tactic Notation "run" "in" hyp(H) :=
  cbv beta iota delta
    [bind ret raise get modify lift emit try_except try_finally] in H.

(** ** Registry primitives *)

Lemma checkDelete_spec s :
  checkDelete s = (Val tt, snd (checkDelete s)) /\
  same_registry s (snd (checkDelete s)) /\
  match count s, context s with
  | O, Some c =>
      match response c with
      | Some r => context (snd (checkDelete s)) = None /\
                  trace (snd (checkDelete s)) = trace s ++ [EvDelete r]
      | None => context (snd (checkDelete s)) = context s /\
                trace (snd (checkDelete s)) = trace s
      end
  | _, _ => context (snd (checkDelete s)) = context s /\
            trace (snd (checkDelete s)) = trace s
  end.
Proof.
  unfold checkDelete, same_registry.
  destruct (count s); [destruct (context s) as [c|] eqn:Hc;
                       [destruct (response c)|]|]; cbn; rewrite ?Hc; auto 10.
Qed.

(** ** The upload stepper *)

Section UploadStepper.

Variable quote : string -> string.
Variable human : Z -> string.
Variable render_upload : MediaFileUpload -> UploadStatus -> Z -> res string.

Local Abbreviation uploadProgress' := (uploadProgress quote human render_upload).

(** C10: [uploadProgress] returns a (progress, done) pair only when
    [next_chunk] gave a partial status or a final response; when both are
    [None] it fails on [response.get] (an AttributeError on [None]) and
    leaves the server as it was. *)
Theorem uploadProgress_needs_status_or_response w file s :
  (next_chunk w file = Val (None, None) ->
   uploadProgress quote human render_upload w file s =
     (Exc AttributeError, s)) /\
  (forall v s',
     uploadProgress quote human render_upload w file s = (Val v, s') ->
   exists st rs, next_chunk w file = Val (st, rs) /\
                 (is_Some st \/ is_Some rs)).
Proof.
  split.
  - intros H. unfold uploadProgress. run. rewrite H. reflexivity.
  - intros v s' H. unfold uploadProgress in H. run in H.
    destruct (next_chunk w file) as [[st rs]|e]; [|discriminate].
    exists st, rs. split; [reflexivity|].
    destruct st as [st|]; [left; eauto|].
    destruct rs as [rs|]; [right; eauto|].
    simpl in H. discriminate.
Qed.

(** C6 (as amended): the chunk stepper returns a final response for a file
    upload registered in both maps (a partial status returned with it
    renders).  When the response carries a size, a context is installed and
    the chat accepts the message, [uploadProgress] sends the result text as
    a reply, deletes that gid from [uploads] and from [downloads] and
    nothing else from either, and, when the registry is then empty and the
    context holds a response message, deletes that message and clears the
    context; otherwise the context stays as it was.  When the response
    carries no size, no context is installed, or the chat refuses the
    message, [uploadProgress] raises and the server is as it was: nothing
    is sent and both entries stay. *)
Theorem uploadProgress_final_removes_both w file s st resp u d :
  next_chunk w file = Val (st, Some resp) ->
  (forall x, st = Some x -> exists p, render_upload file x (clock w) = Val p) ->
  uploads s !! u_gid file = Some u ->
  downloads s !! u_gid file = Some d ->
  match r_size resp, context s, channel w with
  | Some n, Some c, Val m =>
      exists s',
        uploadProgress' w file s = (Val (None, true), s') /\
        uploads s' = delete (u_gid file) (uploads s) /\
        downloads s' = delete (u_gid file) (downloads s) /\
        (forall g, g <> u_gid file ->
           uploads s' !! g = uploads s !! g /\
           downloads s' !! g = downloads s !! g) /\
        cancelled s' = cancelled s /\ mega s' = mega s /\
        generators s' = generators s /\ all_tasks s' = all_tasks s /\
        let sent :=
          EvRespond (msg c) (fileLink quote human s file resp n) ModeReply in
        match count s', response c with
        | O, Some r =>
            context s' = None /\ trace s' = trace s ++ [sent; EvDelete r]
        | _, _ => context s' = Some c /\ trace s' = trace s ++ [sent]
        end
  | _, _, _ => exists e, uploadProgress' w file s = (Exc e, s)
  end.
Proof.
  intros Hnc Hrender Hup Hdl.
  assert (Hhead :
            uploadProgress' w file s =
            (let* file_size :=
               match r_size resp with
               | Some n => ret n
               | None => raise TypeError
               end in
             let* s0 := get in
             let* m := context_msg in
             bot_respond (channel w) m (fileLink quote human s0 file resp file_size) >>
             del_upload (u_gid file) >>
             del_download (u_gid file) >>
             checkDelete >>
             ret (None, true)) s).
  { unfold uploadProgress. run. rewrite Hnc. cbn [fst snd].
    destruct st as [x|];
      [destruct (Hrender x eq_refl) as [p Hp]; rewrite Hp|]; reflexivity. }
  rewrite Hhead. clear Hhead.
  destruct (r_size resp) as [n|]; [|exists TypeError; reflexivity].
  destruct (context s) as [c|] eqn:Hctx;
    [|destruct (channel w); exists AttributeError;
      unfold context_msg; run; rewrite Hctx; reflexivity].
  destruct (channel w) as [m|e] eqn:Hch;
    [|exists e; unfold context_msg, bot_respond; run; rewrite Hctx;
      reflexivity].
  pose (s4 := set_downloads (delete (u_gid file))
                (set_uploads (delete (u_gid file))
                   (set_trace (fun t => t ++
                      [EvRespond (msg c) (fileLink quote human s file resp n)
                         ModeReply]) s))).
  destruct (checkDelete_spec s4) as (Hrun & Hsame & Hretire).
  exists (snd (checkDelete s4)).
  destruct Hsame as (Hc & Hd & Hu & Hm & Hg & Ht).
  split; [|rewrite Hd, Hu, Hc, Hm, Hg, Ht; repeat split].
  - run. unfold context_msg; rewrite Hctx;
      unfold bot_respond;
      unfold emit, modify, del_upload; cbn [uploads set_trace];
      rewrite Hup; unfold del_download;
      cbn [downloads set_uploads set_trace];
      rewrite Hdl; fold s4; rewrite Hrun; reflexivity.
  - cbn. apply lookup_delete_ne; congruence.
  - cbn. apply lookup_delete_ne; congruence.
  - unfold count. rewrite Hd. fold (count s4).
    replace (context s4) with (Some c) in Hretire by (symmetry; exact Hctx).
    destruct (count s4); [destruct (response c)|];
      destruct Hretire as [-> ->]; subst s4;
      cbn [trace set_downloads set_uploads set_trace];
      rewrite <- ?app_assoc; auto.
Qed.

End UploadStepper.

(** Both components [None]: the stepper raises and writes nothing. *)
Example uploadProgress_none_none :
  uploadProgress demo_quote demo_human demo_render_upload
    (demo_world rejecting_engine KFile (None, None) 0)
    demo_handle uploading_server = (Exc AttributeError, uploading_server).
Proof. reflexivity. Qed.

(** C6 (counterexample): the last upload finishes before any notification
    was sent for its context.  The registry is empty afterwards, yet the
    context is still installed. *)
Lemma upload_completion_without_response_keeps_context :
  let w := demo_world rejecting_engine KFile (None, Some demo_response) 0 in
  let s := set_context (Some (mkContext 1 None)) uploading_server in
  let r := uploadProgress demo_quote demo_human demo_render_upload w
             demo_handle s in
  fst r = Val (None, true) /\
  count (snd r) = 0%nat /\
  uploads (snd r) !! demo_gid = None /\
  downloads (snd r) !! demo_gid = None /\
  context (snd r) = Some (mkContext 1 None) /\
  context (snd r) <> None.
Proof. vm_compute. repeat split; try reflexivity. discriminate. Qed.

(** The final step of an upload on a server that tracks only that upload. *)
Lemma uploadProgress_final_witness :
  exists s',
    uploadProgress demo_quote demo_human demo_render_upload
      (demo_world rejecting_engine KFile (None, Some demo_response) 0)
      demo_handle uploading_server = (Val (None, true), s') /\
    uploads s' = delete demo_gid (uploads uploading_server) /\
    downloads s' = delete demo_gid (downloads uploading_server).
Proof.
  pose proof (uploadProgress_final_removes_both demo_quote demo_human
                demo_render_upload
                (demo_world rejecting_engine KFile (None, Some demo_response) 0)
                demo_handle uploading_server None demo_response
                (UFile demo_handle) demo_file eq_refl) as H.
  cbn [r_size demo_response context uploading_server channel demo_world] in H.
  destruct H as (s' & Hrun & Hu & Hd & _); try reflexivity.
  - intros x Hx. discriminate Hx.
  - exists s'. auto.
Defined.

(** ** The facade *)

Section Facade.

Variable literal_eval_message : string -> res string.
Variable utf8_decode : list Byte.byte -> option string.

Local Abbreviation cancelMirror' := (cancelMirror literal_eval_message).
Local Abbreviation addDownload' := (addDownload literal_eval_message utf8_decode).

(** C5 (as amended): for a status the engine reports, [cancelMirror]
    returns the can't-be-aborted text exactly when the status is complete
    with a non-empty followedBy, and then leaves the server untouched, so
    the gid is not marked.  For every other status but active it returns
    nothing and adds the gid to [cancelled].  An active download is
    force-paused, then force-removed: when the engine accepts both calls the
    gid is marked and nothing is returned; when it rejects the pause (the
    removal is then not asked for) or the removal, the exception leaves
    [cancelMirror] and the gid is not marked. *)
Theorem cancelMirror_refuses_only_finished_metadata w g doc s :
  tellStatusFields (engine w) g = Val doc ->
  let out := cancelMirror' w g s in
  (fst out = Val (Some "__GID belongs to finished Metadata, can't be abort.__")
   <-> finished_metadata doc) /\
  (finished_metadata doc -> snd out = s) /\
  (~ finished_metadata doc -> sd_status doc <> "active" ->
   fst out = Val None /\ marked_after g [] s (snd out)) /\
  (sd_status doc = "active" ->
   match forcePause (engine w) g, forceRemove (engine w) g with
   | Val _, Val _ =>
       fst out = Val None /\
       marked_after g [EvForcePause g; EvForceRemove g] s (snd out)
   | Val _, Exc e =>
       fst out = Exc e /\
       unmarked_after [EvForcePause g; EvForceRemove g] s (snd out)
   | Exc e, _ =>
       fst out = Exc e /\ unmarked_after [EvForcePause g] s (snd out)
   end).
Proof.
  intros Hdoc. cbn zeta.
  unfold cancelMirror, finished_metadata, marked_after, unmarked_after.
  rewrite Hdoc.
  destruct (String.eqb (sd_status doc) "active") eqn:Hact.
  - apply String.eqb_eq in Hact.
    assert (Hnot : ~ (sd_status doc = "complete" /\
                      exists x l, sd_followedBy doc = Some (x :: l)))
      by (rewrite Hact; intros [H _]; discriminate H).
    run.
    destruct (forcePause (engine w) g) as [[]|e1];
      [destruct (forceRemove (engine w) g) as [[]|e2]|]; cbn;
      rewrite <- ?app_assoc; cbn [app].
    + split; [split; [discriminate|tauto]|].
      split; [tauto|]. split; [congruence|]. intros _.
      repeat split. apply elem_of_union_r, elem_of_singleton. reflexivity.
    + split; [split; [discriminate|tauto]|].
      split; [tauto|]. split; [congruence|]. intros _. repeat split.
    + split; [split; [discriminate|tauto]|].
      split; [tauto|]. split; [congruence|]. intros _. repeat split.
  - apply String.eqb_neq in Hact.
    destruct (String.eqb (sd_status doc) "complete") eqn:Hcomp; cbn [andb].
    + apply String.eqb_eq in Hcomp.
      destruct (sd_followedBy doc) as [[|x l]|] eqn:Hf; cbn [truthy].
      * run. cbn. split; [split; [discriminate|intros (_ & y & k & H); discriminate H]|].
        split; [intros (_ & y & k & H); discriminate H|].
        split; [|congruence]. intros _ _. rewrite app_nil_r. repeat split.
        apply elem_of_union_r, elem_of_singleton. reflexivity.
      * cbn. split; [split; eauto|]. split; [reflexivity|].
        split; [|congruence]. intros H. exfalso. apply H. eauto.
      * run. cbn. split; [split; [discriminate|intros (_ & y & k & H); discriminate H]|].
        split; [intros (_ & y & k & H); discriminate H|].
        split; [|congruence]. intros _ _. rewrite app_nil_r. repeat split.
        apply elem_of_union_r, elem_of_singleton. reflexivity.
    + apply String.eqb_neq in Hcomp. run. cbn.
      split; [split; [discriminate|intros [H _]; congruence]|].
      split; [intros [H _]; congruence|].
      split; [|congruence]. intros _ _. rewrite app_nil_r. repeat split.
      apply elem_of_union_r, elem_of_singleton. reflexivity.
Qed.

(** [addDownload] on a URI: a rejection by the engine comes back as text. *)
Lemma addDownload_uri_rejected w uri ctx flag s e m :
  addUri (engine w) uri = Exc (Aria2rpcException e) ->
  literal_eval_message (strip (split2_last e)) = Val m ->
  addDownload' w (SStr uri) ctx flag s =
  (Val (Some ("__" +:+ m +:+ "__")), set_trace (fun t => t ++ [EvAddUri uri]) s).
Proof.
  intros He Hm. unfold addDownload, _formatSE. run. rewrite He.
  cbn. rewrite Hm. reflexivity.
Qed.

(** [addDownload] on a URI the engine accepts returns the gid and installs
    the context. *)
Lemma addDownload_uri_accepted w uri ctx flag s g :
  addUri (engine w) uri = Val g ->
  g <> "" ->
  exists s', addDownload' w (SStr uri) ctx flag s = (Val (Some g), s') /\
             context s' = Some ctx.
Proof.
  intros Hg Hne. unfold addDownload, install_context. run. rewrite Hg.
  destruct g as [|a g]; [congruence|]. cbn.
  destruct (context s) as [c|]; [destruct (response c)|];
    destruct flag; cbn; eexists; split; reflexivity.
Qed.

(** [addDownload] on torrent bytes: [addTorrent] is awaited outside any
    [try], and its result is not kept. *)
Lemma addDownload_torrent_rejected w torrent text ctx flag s e :
  utf8_decode torrent = Some text ->
  addTorrent (engine w) text = Exc e ->
  addDownload' w (SBytes torrent) ctx flag s =
  (Exc e, set_trace (fun t => t ++ [EvAddTorrent text]) s).
Proof.
  intros Hd He. unfold addDownload. rewrite Hd. run. rewrite He. reflexivity.
Qed.

Lemma addDownload_torrent_accepted w torrent text ctx flag s g :
  utf8_decode torrent = Some text ->
  addTorrent (engine w) text = Val g ->
  fst (addDownload' w (SBytes torrent) ctx flag s) = Val None.
Proof.
  intros Hd Hg. unfold addDownload, install_context. rewrite Hd. run.
  rewrite Hg. cbn.
  destruct (context s) as [c|]; [destruct (response c)|]; reflexivity.
Qed.

End Facade.

(** ** The facade on concrete engines *)

(** C4 (defect): for torrent bytes [addDownload] neither catches the
    engine's rejection nor returns the gid of an accepted torrent, while the
    URI branch does both: with a rejecting engine the Aria2rpcException
    leaves [addDownload], and with an accepting engine the result is
    [None]. *)
Theorem addDownload_torrent_escapes_and_loses_gid :
  let w_no := demo_world rejecting_engine KFile (None, None) 0 in
  let w_ok := demo_world (accepting_engine demo_file (mkStatusDoc "active" None))
                KFile (None, None) 0 in
  let s := init_server None in
  fst (addDownload demo_literal_eval demo_utf8 w_no (SBytes demo_torrent)
         demo_context false s) = Exc (Aria2rpcException demo_rejection) /\
  fst (addDownload demo_literal_eval demo_utf8 w_ok (SBytes demo_torrent)
         demo_context false s) = Val None /\
  fst (addDownload demo_literal_eval demo_utf8 w_no (SStr "htp:/bad")
         demo_context false s) = Val (Some "__No URI to download.__") /\
  fst (addDownload demo_literal_eval demo_utf8 w_ok (SStr "http://example.org/ubuntu.iso")
         demo_context false s) = Val (Some demo_gid).
Proof. vm_compute. repeat split; reflexivity. Qed.

(** C5 (counterexample): the engine reports an active download and rejects
    the force-pause.  The status was queried successfully and is not
    complete, yet [cancelMirror] does not return nothing and does not mark
    the gid: the exception of the engine leaves it. *)
Lemma active_cancel_rejected_is_not_marked :
  let w := demo_world stubborn_engine KFile (None, None) 0 in
  let s := tracking_server demo_active in
  let out := cancelMirror demo_literal_eval w demo_gid s in
  tellStatusFields (engine w) demo_gid = Val (mkStatusDoc "active" None) /\
  ~ finished_metadata (mkStatusDoc "active" None) /\
  fst out = Exc (Aria2rpcException demo_rejection) /\
  fst out <> Val None /\
  (demo_gid ∉ cancelled (snd out)) /\
  trace (snd out) = [EvForcePause demo_gid].
Proof.
  cbn zeta. split; [reflexivity|].
  split; [intros [H _]; discriminate H|].
  split; [reflexivity|]. split; [discriminate|].
  split; [apply not_elem_of_empty|reflexivity].
Qed.

(** The refusal case of [cancelMirror] on a finished metadata download. *)
Lemma cancelMirror_refusal_witness :
  let w := demo_world (accepting_engine demo_metadata
                         (mkStatusDoc "complete" (Some ["70f1a1c4e3b2d5f6"])))
             KFile (None, None) 0 in
  let out := cancelMirror demo_literal_eval w demo_gid
               (tracking_server demo_metadata) in
  fst out = Val (Some "__GID belongs to finished Metadata, can't be abort.__") /\
  snd out = tracking_server demo_metadata.
Proof.
  cbn zeta.
  destruct (cancelMirror_refuses_only_finished_metadata demo_literal_eval
              (demo_world (accepting_engine demo_metadata
                             (mkStatusDoc "complete" (Some ["70f1a1c4e3b2d5f6"])))
                 KFile (None, None) 0)
              demo_gid (mkStatusDoc "complete" (Some ["70f1a1c4e3b2d5f6"]))
              (tracking_server demo_metadata) eq_refl)
    as ([_ Hr] & Hs & _).
  assert (Hfin : finished_metadata
                   (mkStatusDoc "complete" (Some ["70f1a1c4e3b2d5f6"])))
    by (split; [reflexivity|eexists _, _; reflexivity]).
  split; [exact (Hr Hfin)|exact (Hs Hfin)].
Defined.

(** ** The completion handler *)

Section Handlers.

Variable quote : string -> string.

Local Abbreviation complete_step' := (complete_step quote).

(** The first step of the handler on a metadata-only record. *)
Lemma refresh_metadata_run w outcome g d s :
  tellStatus (engine w) g = Val d ->
  metadata d = true ->
  complete_step' w outcome (CRefresh g) s =
    (Val CDone, set_downloads (delete g) s).
Proof.
  intros Htell Hmeta.
  unfold complete_step, getDownload. run. rewrite Htell, Hmeta.
  unfold del_download. cbn [downloads set_downloads].
  rewrite lookup_insert_eq. unfold set_downloads. cbn.
  rewrite delete_insert_eq. reflexivity.
Qed.

(** C8: when the record re-queried by [onDownloadComplete] is metadata-only,
    the handler deletes the gid from [downloads] and returns: the trace is
    unchanged, so no upload, decrypt or folder creation was called, and
    [uploads] is unchanged.  A later [onDownloadStart] for another gid
    tracks that gid and leaves the first one absent. *)
Theorem complete_metadata_only_drops_record w outcome g d s :
  tellStatus (engine w) g = Val d ->
  metadata d = true ->
  complete_step' w outcome (CRefresh g) s =
    (Val CDone, set_downloads (delete g) s) /\
  (forall w' outcome' s',
     complete_step' w' outcome' CDone s' = (Val CDone, s')) /\
  (forall w' g' d',
     g' <> g ->
     tellStatus (engine w') g' = Val d' ->
     exists s2,
       onDownloadStart w' g' (set_downloads (delete g) s) = (Val tt, s2) /\
       downloads s2 !! g' = Some d' /\
       downloads s2 !! g = None /\
       trace s2 = trace s /\ uploads s2 = uploads s).
Proof.
  intros Htell Hmeta. repeat split.
  - apply (refresh_metadata_run w outcome g d s); assumption.
  - intros w' g' d' Hne Htell'. unfold onDownloadStart, getDownload. run.
    rewrite Htell'. eexists. split; [reflexivity|]. cbn.
    rewrite lookup_insert_eq, lookup_insert_ne, lookup_delete_eq by congruence.
    auto.
Qed.

End Handlers.

(** A metadata-only completion on a server that tracks only that gid. *)
Lemma complete_metadata_only_witness :
  complete_step demo_quote
    (demo_world (accepting_engine demo_metadata (mkStatusDoc "complete" None))
       KFile (None, None) 0)
    None (CRefresh demo_gid) (tracking_server demo_metadata) =
  (Val CDone, set_downloads (delete demo_gid) (tracking_server demo_metadata)).
Proof.
  apply (complete_metadata_only_drops_record demo_quote
           (demo_world (accepting_engine demo_metadata
                          (mkStatusDoc "complete" None))
              KFile (None, None) 0)
           None demo_gid demo_metadata (tracking_server demo_metadata));
    reflexivity.
Defined.

(** ** Retiring the notification *)

(** Inversion of a successful [bind]. *)
Lemma bind_Val_inv {A B} (c : M A) (k : A -> M B) s v s' :
  bind c k s = (Val v, s') ->
  exists a s1, c s = (Val a, s1) /\ k a s1 = (Val v, s').
Proof.
  unfold bind. destruct (c s) as [[a|e] s1]; [eauto|discriminate].
Qed.

Ltac bind_inv H :=
  let a := fresh "a" in
  let s1 := fresh "s" in
  let H1 := fresh "Hstep" in
  apply bind_Val_inv in H as (a & s1 & H1 & H).

Lemma keeps_context_bind {A B} (c : M A) (k : A -> M B) :
  keeps_context c -> (forall a, keeps_context (k a)) ->
  keeps_context (bind c k).
Proof.
  intros Hc Hk s v s'. unfold bind.
  destruct (c s) as [[a|e] s1] eqn:E; intros H.
  - rewrite (Hk a _ _ _ H). eauto.
  - injection H as <- <-. eauto.
Qed.

Lemma keeps_context_modify f :
  (forall s, context (f s) = context s) -> keeps_context (modify f).
Proof. intros Hf s v s' [= <- <-]. apply Hf. Qed.

Lemma keeps_context_pure {A} (c : M A) :
  (forall s, snd (c s) = s) -> keeps_context c.
Proof. intros Hc s v s' H. specialize (Hc s). rewrite H in Hc. cbn in Hc. congruence. Qed.

Lemma keeps_context_del_download g : keeps_context (del_download g).
Proof.
  intros s v s'. unfold del_download.
  destruct (downloads s !! g); intros [= <- <-]; reflexivity.
Qed.

Lemma keeps_context_del_upload g : keeps_context (del_upload g).
Proof.
  intros s v s'. unfold del_upload.
  destruct (uploads s !! g); intros [= <- <-]; reflexivity.
Qed.

Lemma keeps_context_cancelled_remove g : keeps_context (cancelled_remove g).
Proof.
  intros s v s'. unfold cancelled_remove.
  destruct (bool_decide _); intros [= <- <-]; reflexivity.
Qed.

Lemma keeps_context_bot_respond sent m text :
  keeps_context (bot_respond sent m text).
Proof.
  unfold bot_respond. destruct sent.
  - apply keeps_context_modify. reflexivity.
  - apply keeps_context_pure. reflexivity.
Qed.

Lemma keeps_context_lift {A} (r : res A) : keeps_context (lift r).
Proof. apply keeps_context_pure. reflexivity. Qed.

Lemma keeps_context_get : keeps_context get.
Proof. apply keeps_context_pure. reflexivity. Qed.

Lemma keeps_context_ret {A} (a : A) : keeps_context (ret a).
Proof. apply keeps_context_pure. reflexivity. Qed.

Lemma keeps_context_raise {A} e : keeps_context (@raise A e).
Proof. apply keeps_context_pure. reflexivity. Qed.

Lemma keeps_context_context_msg : keeps_context context_msg.
Proof.
  apply keeps_context_pure. intros s. unfold context_msg.
  destruct (context s); reflexivity.
Qed.

Lemma keeps_context_getDownload w g : keeps_context (getDownload w g).
Proof. apply keeps_context_lift. Qed.

Create HintDb keeps.
#[local] Hint Resolve keeps_context_del_download keeps_context_del_upload
  keeps_context_cancelled_remove keeps_context_bot_respond
  keeps_context_lift keeps_context_get keeps_context_ret keeps_context_raise
  keeps_context_context_msg keeps_context_getDownload
  keeps_context_bind : keeps.
#[local] Hint Extern 1 (keeps_context (modify _)) =>
  apply keeps_context_modify; reflexivity : keeps.
#[local] Hint Extern 1 (keeps_context (cancel_tasks_named _)) =>
  apply keeps_context_modify; reflexivity : keeps.
#[local] Hint Extern 1 (keeps_context (aclose _)) =>
  apply keeps_context_modify; reflexivity : keeps.

Lemma checkDelete_retired s v s' :
  checkDelete s = (v, s') -> retired s s'.
Proof.
  intros Hrun Hcount r Hr.
  destruct (checkDelete_spec s) as (Heq & Hsame & Hcases).
  rewrite Hrun in *. cbn [snd] in *.
  destruct Hsame as (_ & Hd & _).
  assert (Hc : count s = 0%nat) by (unfold count in *; congruence).
  rewrite Hc in Hcases. unfold standing in Hr.
  destruct (context s) as [c|]; [|discriminate].
  rewrite Hr in Hcases. destruct Hcases as [-> ->].
  split; [reflexivity|]. apply last_snoc.
Qed.

Lemma retired_context s1 s s' :
  context s1 = context s -> retired s1 s' -> retired s s'.
Proof. unfold retired, standing. intros ->. auto. Qed.

(** One step of a body whose tail retires the notification. *)
Ltac retire_step :=
  match goal with
  | H : checkDelete ?s = _ |- retired ?s _ =>
      exact (checkDelete_retired _ _ _ H)
  | H : bind checkDelete (fun _ => ret _) ?s = (Val _, ?s') |- retired ?s ?s' =>
      let a := fresh "a" in
      let s1 := fresh "s" in
      let H1 := fresh "Hstep" in
      apply bind_Val_inv in H as (a & s1 & H1 & H);
      injection H as _ <-;
      exact (checkDelete_retired _ _ _ H1)
  | H : bind ?c ?k ?s = (Val _, ?s') |- retired ?s ?s' =>
      let a := fresh "a" in
      let s1 := fresh "s" in
      let H1 := fresh "Hstep" in
      apply bind_Val_inv in H as (a & s1 & H1 & H);
      apply (retired_context s1);
      [ let Hk := fresh in
        assert (Hk : keeps_context c) by auto 10 with keeps;
        exact (Hk _ _ _ H1)
      | ]
  end.

Section Retire.

Variable quote : string -> string.
Variable human : Z -> string.
Variable render_upload : MediaFileUpload -> UploadStatus -> Z -> res string.

Local Abbreviation uploadProgress' := (uploadProgress quote human render_upload).
Local Abbreviation complete_step' := (complete_step quote).

Lemma onDownloadError_retired w g s s' :
  onDownloadError w g s = (Val tt, s') -> retired s s'.
Proof.
  unfold onDownloadError. intros H. repeat retire_step.
Qed.

Lemma unwind_retired w g s s' :
  unwind w g s = (Val tt, s') -> retired s s'.
Proof.
  unfold unwind. intros H. retire_step.
  destruct (downloads a !! g) as [f|];
    [destruct (is_file w f && bool_decide (is_Some (uploads a !! g))),
              (is_dir w f && bool_decide (is_Some (uploads a !! g))),
              (uploads a !! g) as [[]|]|];
    repeat retire_step.
Qed.

Lemma uploadProgress_retired w file p s s' :
  uploadProgress' w file s = (Val (p, true), s') -> retired s s'.
Proof.
  unfold uploadProgress. intros H. retire_step.
  destruct a as [[st|] [resp|]]; cbn [fst snd] in H.
  - retire_step. destruct (r_size resp); repeat retire_step.
  - bind_inv H. destruct a; discriminate H.
  - retire_step. destruct (r_size resp); repeat retire_step.
  - bind_inv H. destruct a; discriminate H.
Qed.

Lemma folder_notify_retired w outcome g file folderId pc s s' :
  complete_step' w outcome (CFolderNotify g file folderId) s = (Val pc, s') ->
  retired s s'.
Proof.
  cbn [complete_step]. intros H. bind_inv H.
  injection Hstep as <- <-. intros Hc r Hr. unfold standing in Hr.
  destruct (count s) eqn:Hcnt.
  - unfold context_response, bot_respond in H. run in H.
    destruct (context s) as [c|]; [|discriminate].
    rewrite Hr in H.
    destruct (channel w); [|discriminate]. injection H as <- <-.
    split; [reflexivity|]. cbn. apply last_snoc.
  - exfalso. unfold ctx_respond in H. run in H.
    destruct (context s), (channel w); try discriminate.
    injection H as <- <-. unfold count in *. cbn in Hc. congruence.
Qed.

(** C7 (as amended): after an error notification, the final step of a file
    upload, the cancellation unwind of a gid, and the notification step of a
    finished folder upload, whenever the registry is empty a notification
    that was standing has been deleted and the context is cleared.  A
    metadata-only completion deletes the record and leaves the context and
    the notification as they were. *)
Theorem removal_retires_standing_notification w s :
  (forall g s', onDownloadError w g s = (Val tt, s') -> retired s s') /\
  (forall file p s',
     uploadProgress' w file s = (Val (p, true), s') -> retired s s') /\
  (forall g s', unwind w g s = (Val tt, s') -> retired s s') /\
  (forall outcome g file folderId pc s',
     complete_step' w outcome (CFolderNotify g file folderId) s = (Val pc, s') ->
     retired s s') /\
  (forall outcome g d,
     tellStatus (engine w) g = Val d -> metadata d = true ->
     let s' := snd (complete_step' w outcome (CRefresh g) s) in
     context s' = context s /\ trace s' = trace s /\
     downloads s' = delete g (downloads s)).
Proof.
  split; [|split; [|split; [|split]]].
  - intros g s'. apply onDownloadError_retired.
  - intros file p s'. apply uploadProgress_retired.
  - intros g s'. apply unwind_retired.
  - intros outcome g file folderId pc s'. apply folder_notify_retired.
  - intros outcome g d Ht Hm.
    rewrite (refresh_metadata_run quote w outcome g d s Ht Hm).
    cbn. auto.
Qed.

End Retire.

(** C7 (counterexample): a metadata-only completion of the only tracked
    download empties the registry, yet the notification is not deleted and
    the context is still installed. *)
Lemma metadata_completion_keeps_notification :
  let w := demo_world (accepting_engine demo_metadata
                         (mkStatusDoc "complete" None))
             KFile (None, None) 0 in
  let s' := snd (complete_step demo_quote w None (CRefresh demo_gid)
                   (tracking_server demo_metadata)) in
  count s' = 0%nat /\
  context s' = Some demo_context /\
  standing s' = Some 2%nat /\
  trace s' = [] /\
  ~ retired (tracking_server demo_metadata) s'.
Proof.
  cbn zeta.
  assert (Hrun : complete_step demo_quote
            (demo_world (accepting_engine demo_metadata
                           (mkStatusDoc "complete" None))
               KFile (None, None) 0)
            None (CRefresh demo_gid) (tracking_server demo_metadata) =
          (Val CDone, set_downloads (delete demo_gid)
                        (tracking_server demo_metadata))).
  { apply (refresh_metadata_run _ _ _ _ demo_metadata); reflexivity. }
  rewrite Hrun. cbn [snd].
  assert (Hcount : count (set_downloads (delete demo_gid)
                            (tracking_server demo_metadata)) = 0%nat).
  { vm_compute. reflexivity. }
  repeat split; try assumption; try reflexivity.
  intros Hret. destruct (Hret Hcount 2%nat eq_refl) as [Hctx _].
  discriminate Hctx.
Qed.

(** ** The rate-limited send *)

(** What [notify] does, case by case. *)
Lemma notify_cases w last progress s :
  notify w last progress s =
  if gate last (clock w) progress then
    match context s with
    | None => (Val (Some (clock w)), s)
    | Some c =>
        match channel w with
        | Val r =>
            (Val (Some (clock w)),
             set_context (Some (mkContext (msg c) (Some r)))
               (set_trace (fun t => t ++ [EvCtxRespond (msg c) progress ModeEdit])
                  s))
        | Exc MessageNotModified => (Val (Some (clock w)), s)
        | Exc (FloodWait x) =>
            (Val (Some (clock w)), set_trace (fun t => t ++ [EvSleep x]) s)
        | Exc e => (Exc e, s)
        end
    end
  else (Val last, s).
Proof.
  unfold notify. destruct (gate last (clock w) progress); [|reflexivity].
  unfold ctx_respond. run.
  destruct (context s) as [c|] eqn:Hc; [|reflexivity].
  cbn beta iota. rewrite Hc.
  destruct (channel w) as [r|[]]; reflexivity.
Qed.

Lemma app_singleton_neq {A} (l : list A) (x : A) : l <> l ++ [x].
Proof.
  intros H. apply (f_equal length) in H. rewrite length_app in H.
  cbn in H. lia.
Qed.

Lemma gate_true_iff last now progress :
  progress <> "" ->
  gate last now progress = true <->
  (last = None \/ exists l, last = Some l /\ 5000000 <= now - l).
Proof.
  intros Hne. unfold gate. destruct last as [l|].
  - assert (Hp : String.eqb progress "" = false)
      by (apply String.eqb_neq; exact Hne).
    rewrite Hp, andb_true_r. rewrite Z.leb_le. split.
    + intros H. right. eauto.
    + intros [H|(l' & [= <-] & H)]; [discriminate|exact H].
  - split; auto.
Qed.

(** C3 (as amended): with a non-empty text, a tick sends or edits the
    notification exactly when a context is installed, the channel accepts
    the send, and either the loop has not passed the gate before or five
    seconds have gone by since it last passed it; once the gate has been
    passed an empty text is never sent.  Passing the gate records the time
    whether or not anything was sent, and a tick that does not pass leaves
    everything as it was.  So a tick that follows an emission by less than
    five seconds emits nothing. *)
Theorem notify_emits_iff w last progress s :
  (progress <> "" ->
   (emitted w last progress s <->
    is_Some (context s) /\ (exists r, channel w = Val r) /\
    (last = None \/ exists l, last = Some l /\ 5000000 <= clock w - l))) /\
  (forall l, last = Some l -> progress = "" -> ~ emitted w last progress s) /\
  (gate last (clock w) progress = true ->
   forall l' s', notify w last progress s = (Val l', s') ->
                 l' = Some (clock w)) /\
  (gate last (clock w) progress = false ->
   notify w last progress s = (Val last, s)) /\
  (forall w2 progress2 l1 s1,
     notify w last progress s = (Val l1, s1) ->
     emitted w last progress s ->
     clock w2 - clock w < 5000000 ->
     ~ emitted w2 l1 progress2 s1).
Proof.
  pose proof (notify_cases w last progress s) as Hn.
  split; [|split; [|split; [|split]]].
  - intros Hne. rewrite <- (gate_true_iff last (clock w) progress Hne).
    unfold emitted. rewrite Hn. split.
    + intros [m Hm].
      destruct (gate last (clock w) progress);
        [|cbn in Hm; exfalso; exact (app_singleton_neq _ _ Hm)].
      destruct (context s) as [c|];
        [|cbn in Hm; exfalso; exact (app_singleton_neq _ _ Hm)].
      destruct (channel w) as [r|e]; [eauto 6|].
      exfalso. destruct e; cbn in Hm;
        try exact (app_singleton_neq _ _ Hm).
      apply app_inj_tail in Hm as [_ Hm]. discriminate Hm.
    + intros ([c Hc] & [r Hr] & Hg). rewrite Hg, Hc, Hr. cbn. eauto.
  - intros l -> ->. unfold emitted. rewrite Hn.
    replace (gate (Some l) (clock w) "") with false
      by (unfold gate; cbn; rewrite andb_false_r; reflexivity).
    cbn. intros [m Hm]. exact (app_singleton_neq _ _ Hm).
  - intros Hg l' s' Hrun. rewrite Hn, Hg in Hrun.
    destruct (context s) as [c|]; [|congruence].
    destruct (channel w) as [r|[]]; congruence.
  - intros Hg. rewrite Hn, Hg. reflexivity.
  - intros w2 progress2 l1 s1 Hrun [m Hm] Hclock.
    assert (Hl1 : l1 = Some (clock w)).
    { rewrite Hn in Hrun, Hm.
      destruct (gate last (clock w) progress);
        [|cbn in Hm; exfalso; exact (app_singleton_neq _ _ Hm)].
      destruct (context s) as [c|]; [|congruence].
      destruct (channel w) as [r|[]]; congruence. }
    subst l1. unfold emitted.
    rewrite (notify_cases w2 (Some (clock w)) progress2 s1).
    replace (gate (Some (clock w)) (clock w2) progress2) with false.
    + cbn. intros [m2 Hm2]. exact (app_singleton_neq _ _ Hm2).
    + unfold gate. symmetry. apply andb_false_iff. left.
      apply Z.leb_gt. lia.
Qed.

(** C3 (counterexample): on the first pass of the loop, with a non-empty
    text but no context installed, nothing is sent although the condition
    of the specification holds. *)
Lemma first_tick_without_context_is_silent :
  let w := demo_world rejecting_engine KFile (None, None) 0 in
  let s := init_server None in
  claimed_gate None (clock w) "`ubuntu.iso` Downloading" /\
  trace (snd (notify w None "`ubuntu.iso` Downloading" s)) = [] /\
  ~ (emitted w None "`ubuntu.iso` Downloading" s <->
     claimed_gate None (clock w) "`ubuntu.iso` Downloading").
Proof.
  cbn zeta.
  assert (Hc : claimed_gate None 0 "`ubuntu.iso` Downloading")
    by (split; [discriminate|left; reflexivity]).
  split; [exact Hc|]. split; [reflexivity|].
  intros [_ H]. destruct (H Hc) as [m Hm]. cbn in Hm. discriminate Hm.
Qed.

(** ** The decrypt relay *)

Section RelayFacts.

Variable C : Relay.StreamCipher.

Lemma relay_chunks_out aes chunks out :
  Relay.relay_chunks C aes chunks out =
  (out ++ fst (Relay.relay_chunks C aes chunks []),
   snd (Relay.relay_chunks C aes chunks [])).
Proof.
  revert aes out. induction chunks as [|chunk rest IH]; intros aes out; cbn.
  - rewrite app_nil_r. reflexivity.
  - destruct (Relay.decrypt C aes chunk) as [plain aes'].
    rewrite (IH aes' (out ++ plain)), (IH aes' plain).
    cbn. rewrite app_assoc. reflexivity.
Qed.

(** Decrypting chunk by chunk is decrypting the concatenation. *)
Lemma relay_chunks_concat aes chunks :
  fst (Relay.relay_chunks C aes chunks []) =
  fst (Relay.decrypt C aes (concat chunks)).
Proof.
  revert aes. induction chunks as [|chunk rest IH]; intros aes; cbn.
  - symmetry. apply Relay.decrypt_nil.
  - rewrite Relay.decrypt_app. cbn.
    destruct (Relay.decrypt C aes chunk) as [plain aes'] eqn:E.
    rewrite relay_chunks_out. cbn. rewrite IH. reflexivity.
Qed.

End RelayFacts.

(** The reader cuts the file into its blocks, in order and without loss. *)
Lemma reader_from_concat size room cur data :
  concat (Relay.reader_from size room cur data) = rev cur ++ data.
Proof.
  revert room cur. induction data as [|b rest IH]; intros room cur; cbn.
  - destruct cur; cbn; rewrite ?app_nil_r; reflexivity.
  - destruct (room =? 0)%N; cbn; rewrite IH; cbn.
    + reflexivity.
    + rewrite <- app_assoc. reflexivity.
Qed.

Lemma reader_concat size data : concat (Relay.reader size data) = data.
Proof. unfold Relay.reader. rewrite reader_from_concat. reflexivity. Qed.

Lemma rev_nonempty {A} (l : list A) : l <> [] -> rev l <> [].
Proof.
  intros Hl H. apply (f_equal length) in H. rewrite length_rev in H.
  destruct l; [congruence|discriminate H].
Qed.

Lemma reader_from_nonempty size room cur data :
  cur <> [] ->
  Forall (fun chunk => chunk <> []) (Relay.reader_from size room cur data).
Proof.
  revert room cur. induction data as [|b rest IH]; intros room cur Hcur; cbn.
  - destruct cur; [congruence|].
    constructor; [apply rev_nonempty; discriminate|constructor].
  - destruct (room =? 0)%N.
    + constructor; [apply rev_nonempty; exact Hcur|].
      apply IH. discriminate.
    + apply IH. discriminate.
Qed.

Lemma reader_nonempty size data :
  (0 < size)%N ->
  Forall (fun chunk => chunk <> []) (Relay.reader size data).
Proof.
  intros Hsize. unfold Relay.reader. destruct data as [|b rest]; cbn.
  - constructor.
  - destruct (size =? 0)%N eqn:E; [apply N.eqb_eq in E; lia|].
    apply reader_from_nonempty. discriminate.
Qed.

(** C9: for a ciphertext produced from a plaintext, every split of it into
    chunks taken in order (the non-empty ones among them) decrypts, chunk by
    chunk, to output that concatenates to the plaintext; the 50 MiB blocks
    the relay reads are such a split, non-empty and in order. *)
Theorem chunked_decrypt_reproduces_plaintext (C : Relay.StreamCipher)
    (aes : Relay.cstate C) (plaintext : list Byte.byte)
    (chunks : list (list Byte.byte)) :
  concat chunks = Relay.encrypt C aes plaintext ->
  fst (Relay.relay_chunks C aes chunks []) = plaintext /\
  Relay.relay C aes (Relay.encrypt C aes plaintext) = plaintext /\
  Forall (fun chunk => chunk <> [])
    (Relay.reader Relay.CHUNK_SIZE (Relay.encrypt C aes plaintext)) /\
  concat (Relay.reader Relay.CHUNK_SIZE (Relay.encrypt C aes plaintext)) =
    Relay.encrypt C aes plaintext.
Proof.
  intros Hsplit. repeat split.
  - rewrite relay_chunks_concat, Hsplit. apply Relay.decrypt_encrypt.
  - unfold Relay.relay. rewrite relay_chunks_concat, reader_concat.
    apply Relay.decrypt_encrypt.
  - apply reader_nonempty. reflexivity.
  - apply reader_concat.
Qed.

(** A ciphertext cut into chunks of 5, 1 and 8 bytes. *)
Lemma chunked_decrypt_witness :
  let ct := Relay.encrypt (Relay.xor_cipher demo_keystream) 0%nat demo_plaintext in
  fst (Relay.relay_chunks (Relay.xor_cipher demo_keystream) 0%nat
         [take 5 ct; take 1 (drop 5 ct); drop 6 ct] []) = demo_plaintext.
Proof.
  cbn zeta.
  apply (chunked_decrypt_reproduces_plaintext (Relay.xor_cipher demo_keystream)
           0%nat demo_plaintext).
  vm_compute. reflexivity.
Defined.

(** ** Cancelling a folder upload *)



Lemma quiet_trans s1 s2 s3 : quiet s1 s2 -> quiet s2 s3 -> quiet s1 s3.
Proof.
  intros (e1 & H1 & F1) (e2 & H2 & F2). exists (e1 ++ e2).
  rewrite H2, H1, app_assoc. split; [reflexivity|].
  apply Forall_app. auto.
Qed.







Section FolderCancel.

Variable quote : string -> string.

Local Abbreviation complete_step' := (complete_step quote).



End FolderCancel.


(** With one gid pending, the cancellation phase of a tick is the unwind
    of that gid. *)
Lemma unwind_all_singleton w X s :
  cancelled s = {[X]} ->
  unwind_all w s = (unwind w X >> ret tt) s.
Proof.
  intros Hc. unfold unwind_all. run. rewrite Hc, elements_singleton.
  reflexivity.
Qed.

(** Ten files, three uploaded, then a cancellation: the counter reads 3;
    after the tick both records are gone, the fourth task is cancelled, the
    generator is closed, the handler has ended, and the only calls made
    since are the deletion of the notification and the seeding task. *)
Example three_of_ten_cancelled :
  let before := demo_schedule three_of_ten (mkSystem (init_server None) []) in
  let after := demo_schedule then_cancel before in
  uploads (server before) !! demo_gid = Some (UFolder 0 3) /\
  uploads (server after) !! demo_gid = None /\
  downloads (server after) !! demo_gid = None /\
  handlers after = [CDone] /\
  all_tasks (server after) !! 3%nat = Some (mkTask demo_gid true true) /\
  generators (server after) = [mkGenerator demo_gid 6 true] /\
  trace (server after) =
    trace (server before) ++ [EvDelete 7; EvSpawnSeed ("Seed-" +:+ demo_gid)].
Proof. vm_compute. repeat split; reflexivity. Qed.


(** ** The registry invariant and the scheduler *)

(** C2 (defect): the handler has finished and no coroutine holds the lock,
    yet [uploads] has the gid and [downloads] does not. *)
Theorem cancel_at_completion_orphans_upload :
  let sys := demo_schedule cancel_at_completion
               (mkSystem (init_server None) []) in
  handlers sys = [CDone] /\
  uploads (server sys) !! demo_gid = Some (UFile (mkUpload demo_gid "ubuntu.iso" 9200000)) /\
  downloads (server sys) !! demo_gid = None /\
  cancelled (server sys) = ∅ /\
  ~ uploads_tracked (server sys).
Proof.
  cbn zeta.
  assert (H : handlers (demo_schedule cancel_at_completion
                          (mkSystem (init_server None) [])) = [CDone] /\
              uploads (server (demo_schedule cancel_at_completion
                          (mkSystem (init_server None) []))) !! demo_gid =
                Some (UFile (mkUpload demo_gid "ubuntu.iso" 9200000)) /\
              downloads (server (demo_schedule cancel_at_completion
                          (mkSystem (init_server None) []))) !! demo_gid = None /\
              cancelled (server (demo_schedule cancel_at_completion
                          (mkSystem (init_server None) []))) = ∅).
  { vm_compute. repeat split; reflexivity. }
  destruct H as (Hh & Hu & Hd & Hc).
  repeat split; try assumption.
  intros Hinv. destruct (Hinv demo_gid) as [d Hd'].
  - rewrite Hu. eauto.
  - rewrite Hd in Hd'. discriminate Hd'.
Qed.

(** The same registration keeps the invariant when the record is still
    there: the defect is the unwind between the two lock blocks. *)
Lemma file_register_keeps_tracked quote w outcome g file s :
  uploads_tracked s ->
  is_Some (downloads s !! g) ->
  uploads_tracked (snd (complete_step quote w outcome (CFileRegister g file) s)).
Proof.
  intros Hinv Hd g' Hg'. cbn in *.
  destruct (decide (g' = g)) as [->|Hne]; [exact Hd|].
  rewrite lookup_insert_ne in Hg' by congruence. apply Hinv, Hg'.
Qed.

Lemma onDownloadStart_keeps_tracked w g s :
  uploads_tracked s ->
  uploads_tracked (snd (onDownloadStart w g s)).
Proof.
  intros Hinv g' Hg'. unfold onDownloadStart, getDownload in *.
  revert Hg'. run. destruct (tellStatus (engine w) g) as [d|e]; cbn.
  - intros Hg'. destruct (decide (g' = g)) as [->|Hne].
    + rewrite lookup_insert_eq. eauto.
    + rewrite lookup_insert_ne by congruence. apply Hinv, Hg'.
  - apply Hinv.
Qed.
(** * Further properties *)

(** ** Bodies that respect a preorder on servers *)

Section Respects.

Context (R : relation Server) `{!PreOrder R}.

Lemma respects_still {A} (c : M A) :
  (forall s, snd (c s) = s) -> respects R c.
Proof.
  intros Hc s v s' H. specialize (Hc s). rewrite H in Hc. cbn in Hc.
  subst s'. reflexivity.
Qed.

Lemma respects_modify f : (forall s, R s (f s)) -> respects R (modify f).
Proof. intros Hf s v s' [= <- <-]. apply Hf. Qed.

Lemma respects_bind {A B} (c : M A) (k : A -> M B) :
  respects R c -> (forall a, respects R (k a)) -> respects R (bind c k).
Proof.
  intros Hc Hk s v s'. unfold bind.
  destruct (c s) as [[a|e] s1] eqn:E; intros H.
  - transitivity s1; [exact (Hc _ _ _ E)|exact (Hk a _ _ _ H)].
  - injection H as <- <-. exact (Hc _ _ _ E).
Qed.

Lemma respects_try_except {A} (body : M A) handler :
  respects R body ->
  (forall e h, handler e = Some h -> respects R h) ->
  respects R (try_except body handler).
Proof.
  intros Hb Hh s v s'. unfold try_except.
  destruct (body s) as [[a|e] s1] eqn:E.
  - intros [= <- <-]. exact (Hb _ _ _ E).
  - destruct (handler e) as [h|] eqn:Eh.
    + intros H. transitivity s1; [exact (Hb _ _ _ E)|exact (Hh e h Eh _ _ _ H)].
    + intros [= <- <-]. exact (Hb _ _ _ E).
Qed.

Lemma respects_retry {A} n (c : M A) :
  respects R c -> respects R (retry_KeyError n c).
Proof.
  intros Hc. induction n as [|n IH]; cbn [retry_KeyError].
  - apply respects_still. reflexivity.
  - apply respects_try_except; [exact Hc|].
    intros e h He. destruct e; try discriminate He.
    injection He as <-. exact IH.
Qed.

End Respects.

Global Instance emitting_preorder P : PreOrder (emitting P).
Proof.
  split.
  - intros s. exists []. rewrite app_nil_r. auto.
  - intros s1 s2 s3 (e1 & H1 & F1) (e2 & H2 & F2). exists (e1 ++ e2).
    rewrite H2, H1, app_assoc. split; [reflexivity|].
    apply Forall_app. auto.
Qed.

Global Instance keeping_preorder I : PreOrder (keeping I).
Proof. split; unfold keeping; [intros s; auto|intros s1 s2 s3; auto]. Qed.

Lemma emitting_same P s s' : trace s' = trace s -> emitting P s s'.
Proof. intros H. exists []. rewrite app_nil_r. auto. Qed.

Lemma emitting_one P e s :
  P e = true -> emitting P s (set_trace (fun t => t ++ [e]) s).
Proof. intros H. exists [e]. split; [reflexivity|]. repeat constructor. exact H. Qed.

Lemma respects_emit P e : P e = true -> respects (emitting P) (emit e).
Proof. intros H. apply respects_modify. intros s. apply emitting_one, H. Qed.

(** ** The progress reporter respects what its parts respect *)

Section LoopRespects.

Variable quote : string -> string.
Variable human : Z -> string.
Variable render_upload : MediaFileUpload -> UploadStatus -> Z -> res string.
Variable render_folder : Download -> nat -> res string.
Variable render_decrypt : World -> Download -> res string.
Variable render_download : Download -> string.

Local Abbreviation uploadProgress' := (uploadProgress quote human render_upload).
Local Abbreviation progress_loop' :=
  (progress_loop quote human render_upload render_folder render_decrypt
     render_download).
Local Abbreviation checkProgress' :=
  (checkProgress quote human render_upload render_folder render_decrypt
     render_download).

Context (R : relation Server) `{!PreOrder R}.

Hypothesis refresh_ok :
  forall f g s, R s (set_downloads (alter (fun _ => f) g) s).
Hypothesis upload_ok : forall w f, respects R (uploadProgress' w f).

Lemma progress_loop_respects w files acc :
  respects R (progress_loop' w files acc).
Proof.
  revert acc. induction files as [|file0 rest IH]; intros acc;
    cbn [progress_loop].
  - apply respects_still; [exact _|reflexivity].
  - destruct (tellStatus (engine w) (gid file0)) as [file|e].
    + apply respects_bind; [exact _|apply respects_modify, refresh_ok|].
      intros _.
      destruct (failed file || paused file || complete file && metadata file
                || removed file); [apply IH|].
      destruct (complete file && negb (metadata file)); [|apply IH].
      destruct (is_dir w file).
      * apply respects_bind; [exact _|apply respects_still; [exact _|reflexivity]|].
        intros s0. destruct (uploads s0 !! gid file) as [[f|r c]|].
        -- apply respects_still; [exact _|reflexivity].
        -- apply respects_bind; [exact _|apply respects_still; [exact _|reflexivity]|].
           intros text. apply IH.
        -- apply respects_still; [exact _|reflexivity].
      * destruct (is_file w file); [|apply IH].
        apply respects_bind; [exact _|apply respects_still; [exact _|reflexivity]|].
        intros s0. destruct (bool_decide (gid file ∈ mega s0)).
        -- apply respects_bind; [exact _|apply respects_still; [exact _|reflexivity]|].
           intros text. apply IH.
        -- destruct (uploads s0 !! gid file) as [[f|r c]|].
           ++ apply respects_bind; [exact _|apply upload_ok|].
              intros pd. destruct (snd pd); apply IH.
           ++ apply respects_still; [exact _|reflexivity].
           ++ apply respects_still; [exact _|reflexivity].
    + destruct e; try (apply respects_still; [exact _|reflexivity]).
      apply IH.
Qed.

Lemma checkProgress_respects w : respects R (checkProgress' w).
Proof.
  unfold checkProgress. apply respects_retry; [exact _|].
  unfold checkProgress_once.
  apply respects_bind; [exact _|apply respects_still; [exact _|reflexivity]|].
  intros s0. apply progress_loop_respects.
Qed.

End LoopRespects.

(** ** Every outcome of the upload stepper *)

Lemma checkDelete_returns s : checkDelete s = (Val tt, snd (checkDelete s)).
Proof. apply checkDelete_spec. Qed.

Lemma checkDelete_trace s :
  trace (snd (checkDelete s)) = trace s \/
  exists r, trace (snd (checkDelete s)) = trace s ++ [EvDelete r].
Proof.
  destruct (checkDelete_spec s) as (_ & _ & H).
  destruct (count s); [destruct (context s) as [c|]; [destruct (response c)|]|];
    destruct H as [_ ->]; eauto.
Qed.

Lemma checkDelete_emitting P :
  (forall r, P (EvDelete r) = true) -> respects (emitting P) checkDelete.
Proof.
  intros HP s v s' H. rewrite checkDelete_returns in H. injection H as _ <-.
  destruct (checkDelete_trace s) as [Ht|[r Ht]].
  - apply emitting_same, Ht.
  - exists [EvDelete r]. split; [exact Ht|]. repeat constructor. apply HP.
Qed.

Section UploadOutcomes.

Variable quote : string -> string.
Variable human : Z -> string.
Variable render_upload : MediaFileUpload -> UploadStatus -> Z -> res string.

Local Abbreviation uploadProgress' := (uploadProgress quote human render_upload).

(** Where a run of [uploadProgress] can leave the server: untouched; or
    with the link sent and the deletions done as far as they went. *)
Lemma uploadProgress_outcomes w file s v s' :
  uploadProgress' w file s = (v, s') ->
  (s' = s /\
   match v with
   | Val (p, b) => b = false /\ is_Some p
   | Exc _ => True
   end) \/
  exists m r text,
    context s = Some m /\ channel w = Val r /\
    let s1 := set_trace (fun t => t ++ [EvRespond (msg m) text ModeReply]) s in
    (s' = s1 /\ uploads s !! u_gid file = None /\ v = Exc (KeyError (u_gid file))) \/
    (s' = set_uploads (delete (u_gid file)) s1 /\
     downloads s !! u_gid file = None /\ v = Exc (KeyError (u_gid file))) \/
    (s' = snd (checkDelete (set_downloads (delete (u_gid file))
                              (set_uploads (delete (u_gid file)) s1))) /\
     is_Some (uploads s !! u_gid file) /\
     is_Some (downloads s !! u_gid file) /\
     v = Val (None, true)).
Proof.
  unfold uploadProgress, context_msg, bot_respond, del_upload, del_download.
  run.
  destruct (next_chunk w file) as [[[st|] [resp|]]|e]; cbn [fst snd];
    try destruct (render_upload file st (clock w)) as [p|e];
    try destruct (r_size resp) as [n|];
    try (intros [= <- <-]; left; split; [reflexivity|eauto]);
    (destruct (context s) as [c|] eqn:Hc;
       [|intros [= <- <-]; left; split; [reflexivity|exact I]]);
    (destruct (channel w) as [r|e];
       [|intros [= <- <-]; left; split; [reflexivity|exact I]]);
    cbn [uploads downloads set_trace set_uploads];
    (destruct (uploads s !! u_gid file) as [u|] eqn:Hu;
       [|intros [= <- <-]; right; eexists c, _, _;
         split; [reflexivity|]; split; [reflexivity|]; left; auto]);
    cbn [uploads downloads set_trace set_uploads];
    (destruct (downloads s !! u_gid file) as [d|] eqn:Hd;
       [|intros [= <- <-]; right; eexists c, _, _;
         split; [reflexivity|]; split; [reflexivity|]; right; left; auto]);
    rewrite checkDelete_returns; intros [= <- <-];
    right; eexists c, _, _;
    (split; [reflexivity|]); (split; [reflexivity|]);
    right; right; eauto.
Qed.

(** X1: a step that reports an upload as not done returns a progress text
    and leaves the server exactly as it was; a step that reports it done
    returns no text, found the gid in both registries, and has removed it
    from both. *)
Theorem uploadProgress_result_shape w file s p b s' :
  uploadProgress quote human render_upload w file s = (Val (p, b), s') ->
  (b = false /\ is_Some p /\ s' = s) \/
  (b = true /\ p = None /\
   is_Some (uploads s !! u_gid file) /\ is_Some (downloads s !! u_gid file) /\
   uploads s' = delete (u_gid file) (uploads s) /\
   downloads s' = delete (u_gid file) (downloads s)).
Proof.
  intros H. apply uploadProgress_outcomes in H.
  destruct H as [[-> [-> Hp]]|(m & r & text & _ & _ & H)]; [left; auto|].
  cbn zeta in H. destruct H as [(_ & _ & H)|[(_ & _ & H)|(-> & Hu & Hd & H)]];
    try discriminate H.
  injection H as <- <-. right.
  match goal with |- context [checkDelete ?x] =>
    destruct (checkDelete_spec x) as (_ & (_ & Hd' & Hu' & _) & _) end.
  rewrite Hd', Hu'. auto 10.
Qed.

(** X2: when no context is installed, or the chat refuses the message, a
    step of [uploadProgress] changes nothing on the server, whatever the
    drive answered; in particular a finished upload stays registered, and
    the step does not report it done. *)
Theorem uploadProgress_unsent_changes_nothing w file s :
  context s = None \/ (exists e, channel w = Exc e) ->
  snd (uploadProgress quote human render_upload w file s) = s /\
  forall p, fst (uploadProgress quote human render_upload w file s)
            <> Val (p, true).
Proof.
  intros Hno.
  destruct (uploadProgress' w file s) as [v s'] eqn:E. cbn [fst snd].
  apply uploadProgress_outcomes in E.
  destruct E as [[-> Hv]|(m & r & text & Hc & Hch & _)].
  - split; [reflexivity|]. intros p ->. destruct Hv as [Hv _]. discriminate Hv.
  - exfalso. destruct Hno as [Hno|[e Hno]]; congruence.
Qed.

Lemma uploadProgress_emitting P w file :
  (forall m t, P (EvRespond m t ModeReply) = true) ->
  (forall r, P (EvDelete r) = true) ->
  respects (emitting P) (uploadProgress' w file).
Proof.
  intros HR HD s v s' H. apply uploadProgress_outcomes in H.
  destruct H as [[-> _]|(m & r & text & _ & _ & H)]; [reflexivity|].
  cbn zeta in H.
  assert (H1 : emitting P s
            (set_trace (fun t => t ++ [EvRespond (msg m) text ModeReply]) s))
    by apply emitting_one, HR.
  destruct H as [(-> & _)|[(-> & _)|(-> & _)]].
  - exact H1.
  - exact H1.
  - etransitivity; [exact H1|].
    match goal with |- context [checkDelete ?x] =>
      pose proof (checkDelete_emitting P HD x _ _ (checkDelete_returns x)) as H2
    end.
    destruct H2 as (evs & Ht & Hf). exists evs. split; [exact Ht|exact Hf].
Qed.

Lemma uploadProgress_keeps_tracked w file :
  respects (keeping uploads_tracked) (uploadProgress' w file).
Proof.
  intros s v s' H Hinv. apply uploadProgress_outcomes in H.
  destruct H as [[-> _]|(m & r & text & _ & _ & H)]; [exact Hinv|].
  cbn zeta in H. destruct H as [(-> & _)|[(-> & _)|(-> & _)]].
  - exact Hinv.
  - intros g Hg. cbn in *.
    destruct (decide (g = u_gid file)) as [->|Hne].
    + rewrite lookup_delete_eq in Hg. destruct Hg as [? Hg]. discriminate Hg.
    + rewrite lookup_delete_ne in Hg by congruence. apply Hinv, Hg.
  - match goal with |- context [checkDelete ?x] =>
      destruct (checkDelete_spec x) as (_ & (_ & Hd' & Hu' & _) & _) end.
    intros g. rewrite Hd', Hu'. cbn.
    destruct (decide (g = u_gid file)) as [->|Hne].
    + rewrite lookup_delete_eq. intros [? Hg]. discriminate Hg.
    + rewrite !lookup_delete_ne by congruence. apply Hinv.
Qed.

End UploadOutcomes.

(** ** The cancellation pass *)

(** The unwind of a marked gid, in every case but the one where a file
    upload handle is registered for a directory. *)
Lemma unwind_run w g s :
  g ∈ cancelled s ->
  (forall f h, downloads s !! g = Some f -> is_dir w f = true ->
               uploads s !! g = Some (UFile h) -> False) ->
  exists s0,
    unwind w g s = (Val tt, snd (checkDelete s0)) /\
    cancelled s0 = cancelled s ∖ {[g]} /\
    downloads s0 = delete g (downloads s) /\
    uploads s0 = match downloads s !! g with
                 | Some f => if is_file w f || is_dir w f
                             then delete g (uploads s) else uploads s
                 | None => uploads s
                 end /\
    mega s0 = mega s /\ context s0 = context s /\ trace s0 = trace s.
Proof.
  intros Hc Hok. unfold unwind. run.
  unfold is_file, is_dir in *.
  destruct (downloads s !! g) as [f|] eqn:Hd; cbn [uploads set_downloads].
  - destruct (fs w (path f)) eqn:Hfs; cbn [andb orb].
    + destruct (uploads s !! g) as [u|] eqn:Hu.
      * rewrite bool_decide_eq_true_2 by eauto.
        unfold del_upload, cancelled_remove.
        cbn [uploads cancelled set_downloads set_uploads]. rewrite Hu.
        cbn [uploads cancelled set_downloads set_uploads].
        rewrite bool_decide_eq_true_2 by exact Hc.
        rewrite checkDelete_returns. eexists. split; [reflexivity|].
        cbn. repeat split.
      * rewrite bool_decide_eq_false_2 by (intros [? ?]; discriminate).
        unfold cancelled_remove. cbn [cancelled set_downloads].
        rewrite bool_decide_eq_true_2 by exact Hc.
        rewrite checkDelete_returns. eexists. split; [reflexivity|].
        cbn. rewrite (delete_id (uploads s) g Hu). repeat split.
    + destruct (uploads s !! g) as [[h|r c]|] eqn:Hu.
      * exfalso. apply (Hok f h); [reflexivity|rewrite Hfs; reflexivity|reflexivity].
      * rewrite bool_decide_eq_true_2 by eauto.
        unfold cancel_tasks_named, aclose, del_upload, cancelled_remove. run.
        cbn [uploads cancelled set_downloads set_uploads set_all_tasks
             set_generators]. rewrite Hu.
        cbn [uploads cancelled set_downloads set_uploads set_all_tasks
             set_generators].
        rewrite bool_decide_eq_true_2 by exact Hc.
        rewrite checkDelete_returns. eexists. split; [reflexivity|].
        cbn. repeat split.
      * rewrite bool_decide_eq_false_2 by (intros [? ?]; discriminate).
        unfold cancelled_remove. cbn [cancelled set_downloads].
        rewrite bool_decide_eq_true_2 by exact Hc.
        rewrite checkDelete_returns. eexists. split; [reflexivity|].
        cbn. rewrite (delete_id (uploads s) g Hu). repeat split.
    + unfold cancelled_remove. cbn [cancelled set_downloads].
      rewrite bool_decide_eq_true_2 by exact Hc.
      rewrite checkDelete_returns. eexists. split; [reflexivity|].
      cbn. repeat split.
  - unfold cancelled_remove.
    rewrite bool_decide_eq_true_2 by exact Hc.
    rewrite checkDelete_returns. eexists. split; [reflexivity|].
    cbn. rewrite (delete_id (downloads s) g Hd). repeat split.
Qed.

(** X3: the unwind of a marked gid always removes the mark and the download
    record.  It removes the upload state exactly when a record was there and
    its path is a file or a directory: the upload state of a gid whose
    record is already gone, or whose path has vanished, stays in [uploads].
    (The case left out is a file handle registered for a directory, where
    the unwind raises.) *)
Theorem unwind_removes_mark_and_record w g s :
  g ∈ cancelled s ->
  (forall f h, downloads s !! g = Some f -> is_dir w f = true ->
               uploads s !! g = Some (UFile h) -> False) ->
  exists s',
    unwind w g s = (Val tt, s') /\
    cancelled s' = cancelled s ∖ {[g]} /\
    downloads s' = delete g (downloads s) /\
    uploads s' = match downloads s !! g with
                 | Some f => if is_file w f || is_dir w f
                             then delete g (uploads s) else uploads s
                 | None => uploads s
                 end /\
    mega s' = mega s.
Proof.
  intros Hc Hok.
  destruct (unwind_run w g s Hc Hok) as (s0 & Hrun & H1 & H2 & H3 & H4 & _).
  destruct (checkDelete_spec s0) as (_ & (Hc' & Hd' & Hu' & Hm' & _) & _).
  exists (snd (checkDelete s0)). rewrite Hc', Hd', Hu', Hm'. auto 10.
Qed.

Lemma unwind_each_run w gs :
  NoDup gs ->
  forall s,
    (forall g, g ∈ gs -> g ∈ cancelled s) ->
    (forall g f h, g ∈ gs -> downloads s !! g = Some f -> is_dir w f = true ->
                   uploads s !! g = Some (UFile h) -> False) ->
    exists s',
      unwind_each w gs s = (Val tt, s') /\
      (forall g, g ∈ cancelled s' <-> g ∈ cancelled s /\ g ∉ gs) /\
      (forall g, downloads s' !! g =
                 if bool_decide (g ∈ gs) then None else downloads s !! g) /\
      (forall g, g ∉ gs -> uploads s' !! g = uploads s !! g).
Proof.
  induction 1 as [|g gs Hg Hnd IH]; intros s Hin Hok; cbn [unwind_each].
  - exists s. split; [reflexivity|]. split; [|split].
    + intros g. rewrite elem_of_nil. tauto.
    + intros g. rewrite bool_decide_eq_false_2 by apply not_elem_of_nil.
      reflexivity.
    + reflexivity.
  - destruct (unwind_run w g s) as (s0 & Hrun & H1 & H2 & H3 & _).
    { apply Hin. left. }
    { intros f h. apply Hok. left. }
    destruct (checkDelete_spec s0) as (_ & (Hc' & Hd' & Hu' & _) & _).
    set (s1 := snd (checkDelete s0)) in *.
    assert (Hup : forall g', g' <> g -> uploads s1 !! g' = uploads s !! g').
    { intros g' Hne. rewrite Hu', H3.
      destruct (downloads s !! g) as [f|]; [|reflexivity].
      destruct (is_file w f || is_dir w f); [|reflexivity].
      apply lookup_delete_ne. congruence. }
    assert (Hdn : forall g', g' <> g -> downloads s1 !! g' = downloads s !! g').
    { intros g' Hne. rewrite Hd', H2. apply lookup_delete_ne. congruence. }
    destruct (IH s1) as (s' & Hrest & Hc2 & Hd2 & Hu2).
    { intros g' Hg'. rewrite Hc', H1. apply elem_of_difference. split.
      - apply Hin. right. exact Hg'.
      - rewrite elem_of_singleton. intros ->. contradiction. }
    { intros g' f h Hg' Hf Hdir Hu.
      assert (Hne : g' <> g) by (intros ->; contradiction).
      rewrite Hdn in Hf by exact Hne. rewrite Hup in Hu by exact Hne.
      apply (Hok g' f h); auto. right. exact Hg'. }
    exists s'. split; [|split; [|split]].
    + unfold bind. rewrite Hrun. exact Hrest.
    + intros g'. rewrite Hc2, Hc', H1, elem_of_difference, elem_of_singleton,
        elem_of_cons. tauto.
    + intros g'. rewrite Hd2.
      destruct (decide (g' = g)) as [->|Hne].
      * rewrite (bool_decide_eq_true_2 (g ∈ g :: gs)) by left.
        destruct (bool_decide (g ∈ gs)); [reflexivity|].
        rewrite Hd', H2. apply lookup_delete_eq.
      * rewrite Hdn by exact Hne.
        destruct (bool_decide (g' ∈ gs)) eqn:E.
        -- apply bool_decide_eq_true in E.
           rewrite bool_decide_eq_true_2 by (right; exact E). reflexivity.
        -- apply bool_decide_eq_false in E.
           rewrite bool_decide_eq_false_2; [reflexivity|].
           rewrite elem_of_cons. tauto.
    + intros g' Hg'. rewrite elem_of_cons in Hg'.
      rewrite Hu2 by tauto. apply Hup. tauto.
Qed.

(** X4: the cancellation pass of a tick empties [cancelled]: every marked
    gid loses its mark and its download record, and no unmarked gid loses
    its record or its upload state.  (Provided no marked gid has a file
    handle registered for a directory, the one case where the unwind
    raises.) *)
Theorem unwind_all_empties_cancelled w s :
  (forall g f h, g ∈ cancelled s -> downloads s !! g = Some f ->
                 is_dir w f = true -> uploads s !! g = Some (UFile h) -> False) ->
  exists s',
    unwind_all w s = (Val tt, s') /\
    cancelled s' = ∅ /\
    (forall g, downloads s' !! g =
               if bool_decide (g ∈ cancelled s) then None else downloads s !! g) /\
    (forall g, g ∉ cancelled s -> uploads s' !! g = uploads s !! g).
Proof.
  intros Hok. unfold unwind_all. run.
  destruct (unwind_each_run w (elements (cancelled s)) (NoDup_elements _) s)
    as (s' & Hrun & Hc & Hd & Hu).
  - intros g. apply elem_of_elements.
  - intros g f h Hg. apply Hok. apply elem_of_elements, Hg.
  - exists s'. split; [exact Hrun|]. split; [|split].
    + apply set_eq. intros g. rewrite Hc, elem_of_elements.
      split; [tauto|]. intros Hg. apply not_elem_of_empty in Hg. contradiction.
    + intros g. rewrite Hd.
      destruct (bool_decide (g ∈ elements (cancelled s))) eqn:E.
      * apply bool_decide_eq_true in E. apply elem_of_elements in E.
        rewrite bool_decide_eq_true_2 by exact E. reflexivity.
      * apply bool_decide_eq_false in E. rewrite elem_of_elements in E.
        rewrite bool_decide_eq_false_2 by exact E. reflexivity.
    + intros g Hg. apply Hu. rewrite elem_of_elements. exact Hg.
Qed.

(** ** What a tick sends *)

Lemma respects_traceless {A} P (c : M A) :
  (forall s, trace (snd (c s)) = trace s) -> respects (emitting P) c.
Proof.
  intros Hc s v s' H. specialize (Hc s). rewrite H in Hc.
  apply emitting_same, Hc.
Qed.

Lemma del_upload_traceless g s : trace (snd (del_upload g s)) = trace s.
Proof. unfold del_upload. destruct (uploads s !! g); reflexivity. Qed.

Lemma del_download_traceless g s : trace (snd (del_download g s)) = trace s.
Proof. unfold del_download. destruct (downloads s !! g); reflexivity. Qed.

Lemma cancelled_remove_traceless g s :
  trace (snd (cancelled_remove g s)) = trace s.
Proof. unfold cancelled_remove. destruct (bool_decide _); reflexivity. Qed.

Lemma unwind_emitting P w g :
  (forall r, P (EvDelete r) = true) -> respects (emitting P) (unwind w g).
Proof.
  intros HD. unfold unwind.
  apply respects_bind; [exact _|apply respects_traceless; reflexivity|].
  intros s0.
  apply respects_bind; [exact _| |intros _].
  { destruct (downloads s0 !! g); apply respects_traceless; reflexivity. }
  apply respects_bind; [exact _| |intros _].
  { destruct (downloads s0 !! g) as [f|];
      [|apply respects_traceless; reflexivity].
    destruct (is_file w f && _);
      [apply respects_traceless, del_upload_traceless|].
    destruct (is_dir w f && _); [|apply respects_traceless; reflexivity].
    apply respects_bind; [exact _|apply respects_traceless; reflexivity|].
    intros _.
    apply respects_bind; [exact _| |intros _].
    - destruct (uploads s0 !! g) as [[h|r c]|];
        apply respects_traceless; reflexivity.
    - apply respects_traceless, del_upload_traceless. }
  apply respects_bind; [exact _| |intros _].
  { apply respects_traceless, cancelled_remove_traceless. }
  apply checkDelete_emitting, HD.
Qed.

Lemma unwind_all_emitting P w :
  (forall r, P (EvDelete r) = true) -> respects (emitting P) (unwind_all w).
Proof.
  intros HD. unfold unwind_all.
  apply respects_bind; [exact _|apply respects_traceless; reflexivity|].
  intros s0. induction (elements (cancelled s0)) as [|g gs IH];
    cbn [unwind_each].
  - apply respects_traceless. reflexivity.
  - apply respects_bind; [exact _|apply unwind_emitting, HD|].
    intros _. exact IH.
Qed.

Section Tick.

Variable quote : string -> string.
Variable human : Z -> string.
Variable render_upload : MediaFileUpload -> UploadStatus -> Z -> res string.
Variable render_folder : Download -> nat -> res string.
Variable render_decrypt : World -> Download -> res string.
Variable render_download : Download -> string.

Local Abbreviation checkProgress' :=
  (checkProgress quote human render_upload render_folder render_decrypt
     render_download).

Lemma checkProgress_emitting P w :
  (forall m t, P (EvRespond m t ModeReply) = true) ->
  (forall r, P (EvDelete r) = true) ->
  respects (emitting P) (checkProgress' w).
Proof.
  intros HR HD. apply checkProgress_respects; [exact _| |].
  - intros f g s. apply emitting_same. reflexivity.
  - intros w0 f. apply uploadProgress_emitting; assumption.
Qed.

(** X5: an iteration of the progress loop that reads the clock at its
    gate, once [checkProgress] has returned, less than five seconds after
    the loop last passed the gate never edits the notification, whatever
    else it does and however long the cancellation pass and [checkProgress]
    took: in every outcome, the calls it adds to the trace are replies with
    the link of a finished upload and deletions of the notification. *)
Theorem tick_within_five_seconds_never_edits w gate_world l s :
  clock gate_world - l < 5000000 ->
  exists evs,
    trace (snd (updateProgress_tick quote human render_upload render_folder
                  render_decrypt render_download w gate_world (Some l) s)) =
    trace s ++ evs /\
    Forall (fun e => link_or_delete e = true) evs.
Proof.
  intros Hclock.
  assert (H : respects (emitting link_or_delete)
                (updateProgress_tick quote human render_upload render_folder
                   render_decrypt render_download w gate_world (Some l))).
  { unfold updateProgress_tick.
    apply respects_bind;
      [exact _|apply unwind_all_emitting; reflexivity|intros _].
    intros s1 v s'.
    destruct (checkProgress' w s1) as [[progress|e] s2] eqn:E.
    - rewrite notify_cases.
      replace (gate (Some l) (clock gate_world) progress) with false.
      + intros [= <- <-].
        exact (checkProgress_emitting link_or_delete w (fun _ _ => eq_refl)
                 (fun _ => eq_refl) _ _ _ E).
      + unfold gate. symmetry. apply andb_false_iff. left.
        apply Z.leb_gt. lia.
    - assert (He : emitting link_or_delete s1 s2)
        by exact (checkProgress_emitting link_or_delete w (fun _ _ => eq_refl)
                    (fun _ => eq_refl) _ _ _ E).
      destruct e; intros [= <- <-]; exact He. }
  destruct (updateProgress_tick _ _ _ _ _ _ w gate_world (Some l) s)
    as [v s'] eqn:E.
  exact (H _ _ _ E).
Qed.

(** X6: in every outcome, a run of [checkProgress] leaves every gid that
    has upload state with a download record, if that was so before: the
    refresh keeps the keys, and the upload stepper deletes the upload state
    before the record. *)
Theorem checkProgress_keeps_uploads_tracked w s :
  uploads_tracked s ->
  uploads_tracked
    (snd (checkProgress quote human render_upload render_folder
            render_decrypt render_download w s)).
Proof.
  intros Hinv.
  destruct (checkProgress' w s) as [v s'] eqn:E. cbn [snd].
  refine (checkProgress_respects quote human render_upload render_folder
            render_decrypt render_download (keeping uploads_tracked)
            _ _ w _ _ _ E Hinv).
  - intros f g s0 H0 k Hk. cbn in *.
    apply lookup_alter_is_Some. apply H0, Hk.
  - intros w0 f. apply uploadProgress_keeps_tracked.
Qed.

End Tick.

(** ** The progress text while nothing is uploading *)

Lemma append_assoc (a b c : string) : (a +:+ b) +:+ c = a +:+ (b +:+ c).
Proof.
  induction a as [|x a IH]; [reflexivity|].
  change (String x ((a +:+ b) +:+ c) = String x (a +:+ (b +:+ c))).
  rewrite IH. reflexivity.
Qed.

Section ProgressText.

Variable quote : string -> string.
Variable human : Z -> string.
Variable render_upload : MediaFileUpload -> UploadStatus -> Z -> res string.
Variable render_folder : Download -> nat -> res string.
Variable render_decrypt : World -> Download -> res string.
Variable render_download : Download -> string.

Local Abbreviation progress_loop' :=
  (progress_loop quote human render_upload render_folder render_decrypt
     render_download).

Lemma progress_loop_blocks w files :
  Forall (downloading w) files ->
  forall acc s,
    exists s',
      progress_loop' w files acc s =
        (Val (acc +:+ blocks render_download w files), s') /\
      uploads s' = uploads s /\ context s' = context s /\
      trace s' = trace s /\ cancelled s' = cancelled s /\
      mega s' = mega s /\ dom (downloads s') = dom (downloads s).
Proof.
  induction 1 as [|d rest Hd _ IH]; intros acc s; cbn [progress_loop blocks].
  - exists s. split; [|auto 10].
    replace (acc +:+ "") with acc; [reflexivity|].
    clear. induction acc as [|x acc IH]; [reflexivity|].
    change (String x acc = String x (acc +:+ "")). rewrite <- IH. reflexivity.
  - unfold downloading in Hd. unfold block.
    destruct (tellStatus (engine w) (gid d)) as [d'|e].
    + run.
      set (s1 := set_downloads (alter (fun _ => d') (gid d)) s).
      assert (Hdom : dom (downloads s1) = dom (downloads s))
        by apply dom_alter_L.
      fold (skipped d'). destruct (skipped d') eqn:Hsk.
      * destruct (IH acc s1) as (s' & Hrun & Hrest). exists s'.
        split; [exact Hrun|]. rewrite <- Hdom. exact Hrest.
      * assert (Hc : complete d' = false).
        { destruct (complete d') eqn:Hc; [|reflexivity].
          unfold skipped in Hsk. rewrite Hc, (Hd eq_refl) in Hsk.
          cbn in Hsk. rewrite orb_true_r in Hsk. discriminate Hsk. }
        rewrite Hc. cbn [andb].
        destruct (IH (acc +:+ render_download d') s1) as (s' & Hrun & Hrest).
        exists s'. rewrite <- append_assoc.
        split; [exact Hrun|]. rewrite <- Hdom. exact Hrest.
    + destruct Hd as [t ->]. apply IH.
Qed.

(** X7: while no tracked download is a finished download waiting for or
    in its upload, [checkProgress] returns at its first attempt.  Its text
    is made of one block per tracked record, in the order the records are
    visited: the download block of the refreshed record, and nothing for a
    record that is failed, paused, removed, finished metadata, or refused by
    the engine.  It changes nothing but the refreshed records: the gids
    tracked, the upload state, the context and the trace stay as they
    were. *)
Theorem checkProgress_lists_live_downloads w s :
  (forall g d, downloads s !! g = Some d -> downloading w d) ->
  exists files s',
    files ≡ₚ (snd <$> map_to_list (downloads s)) /\
    checkProgress quote human render_upload render_folder render_decrypt
      render_download w s = (Val (blocks render_download w files), s') /\
    dom (downloads s') = dom (downloads s) /\
    uploads s' = uploads s /\ context s' = context s /\
    trace s' = trace s /\ cancelled s' = cancelled s.
Proof.
  intros Hall.
  destruct (progress_loop_blocks w (snd <$> map_to_list (downloads s)))
    with (acc := "") (s := s) as (s' & Hrun & Hu & Hc & Ht & Hcn & _ & Hd).
  { apply Forall_forall. intros d Hin.
    apply list_elem_of_fmap in Hin as ([g d0] & -> & Hin).
    apply elem_of_map_to_list in Hin. exact (Hall g d0 Hin). }
  exists (snd <$> map_to_list (downloads s)), s'.
  split; [reflexivity|]. split; [|auto].
  unfold checkProgress, checkProgress_once. cbn [retry_KeyError].
  unfold try_except. run. rewrite Hrun. reflexivity.
Qed.

End ProgressText.

(** ** A download that fails *)

(** X8: [onDownloadError] removes the record only after the notice went
    out.  When the engine does not answer the status query, when no context
    is installed, or when the chat refuses the message, the handler raises
    and the server is exactly as it was: the failed download stays
    tracked. *)
Theorem onDownloadError_unsent_changes_nothing w g s :
  (exists e, tellStatus (engine w) g = Exc e) \/
  context s = None \/
  (exists e, channel w = Exc e) ->
  exists e, onDownloadError w g s = (Exc e, s).
Proof.
  intros H. unfold onDownloadError, getDownload, context_msg, bot_respond. run.
  destruct (tellStatus (engine w) g) as [d|e0]; [|eauto].
  destruct (context s) as [c|]; [|eauto].
  destruct (channel w) as [m|e1]; [|eauto].
  exfalso. destruct H as [[e H]|[H|[e H]]]; discriminate H.
Qed.

(** X9: with a context installed and a chat that accepts the message,
    [onDownloadError] replies to the command message and then deletes the
    record under the gid the engine reported.  If that gid is tracked, the
    record is removed, every other record and all upload state stay, and
    the notification is deleted exactly when the registry became empty and
    a notification stood; if it is not tracked, the reply has been sent and
    the handler raises KeyError. *)
Theorem onDownloadError_reports_then_removes w g d c m s :
  tellStatus (engine w) g = Val d ->
  context s = Some c ->
  channel w = Val m ->
  exists text,
    let notice := EvRespond (msg c) text ModeReply in
    match downloads s !! gid d with
    | Some _ =>
        exists s',
          onDownloadError w g s = (Val tt, s') /\
          downloads s' = delete (gid d) (downloads s) /\
          uploads s' = uploads s /\ cancelled s' = cancelled s /\
          match count s', response c with
          | O, Some r =>
              context s' = None /\ trace s' = trace s ++ [notice; EvDelete r]
          | _, _ => context s' = Some c /\ trace s' = trace s ++ [notice]
          end
    | None =>
        onDownloadError w g s =
          (Exc (KeyError (gid d)), set_trace (fun t => t ++ [notice]) s)
    end.
Proof.
  intros Hd Hc Hch. eexists. cbn zeta.
  unfold onDownloadError, getDownload, context_msg, bot_respond, del_download.
  run. rewrite Hd, Hc, Hch. cbn [downloads set_trace].
  destruct (downloads s !! gid d) as [d0|] eqn:Hl; [|reflexivity].
  match goal with |- context [checkDelete ?x] =>
    destruct (checkDelete_spec x) as (Hrun & (Hcn & Hdl & Hup & _) & Hcases);
    set (s4 := x) in *
  end.
  exists (snd (checkDelete s4)). split; [exact Hrun|].
  rewrite Hdl, Hup, Hcn.
  split; [reflexivity|]. split; [reflexivity|]. split; [reflexivity|].
  unfold count. rewrite Hdl. fold (count s4).
  replace (context s4) with (Some c) in Hcases by (symmetry; exact Hc).
  destruct (count s4); [destruct (response c)|];
    destruct Hcases as [-> ->]; subst s4;
    cbn [trace set_downloads set_trace]; rewrite <- ?app_assoc; auto.
Qed.

(** X10: a download that starts and then fails leaves the registry as it
    found it, provided the error notice goes out.  The gid was not tracked
    before, and the engine answers both status queries, the second with a
    record of that gid.  When a context is installed and the chat accepts
    the notice, [onDownloadStart] followed by [onDownloadError] for the gid
    ends with the same records and the same upload state.  When no context
    is installed or the chat refuses the notice, [onDownloadError] raises
    with nothing sent, and the record [onDownloadStart] added stays
    tracked. *)
Theorem start_then_error_restores_registry w w' g d d' s :
  downloads s !! g = None ->
  tellStatus (engine w) g = Val d ->
  tellStatus (engine w') g = Val d' ->
  gid d' = g ->
  match context s, channel w' with
  | Some c, Val m =>
      exists s',
        (onDownloadStart w g >> onDownloadError w' g) s = (Val tt, s') /\
        downloads s' = downloads s /\ uploads s' = uploads s
  | _, _ =>
      exists e s',
        (onDownloadStart w g >> onDownloadError w' g) s = (Exc e, s') /\
        downloads s' = <[g := d]> (downloads s) /\ uploads s' = uploads s /\
        trace s' = trace s
  end.
Proof.
  intros Hnew Hd Hd' Hg.
  unfold onDownloadStart, onDownloadError, getDownload, context_msg,
    bot_respond, del_download.
  run. rewrite Hd, Hd'. cbn [context set_downloads].
  destruct (context s) as [c|] eqn:Hc;
    [|destruct (channel w'); eexists _, _; (split; [reflexivity|]);
      cbn; auto].
  destruct (channel w') as [m|e] eqn:Hch;
    [|eexists _, _; (split; [reflexivity|]); cbn; auto].
  rewrite Hg.
  cbn [downloads set_trace set_downloads]. rewrite lookup_insert_eq.
  match goal with |- context [checkDelete ?x] =>
    destruct (checkDelete_spec x) as (Hrun & (_ & Hdl & Hup & _) & _);
    set (s4 := x) in *
  end.
  exists (snd (checkDelete s4)). split; [exact Hrun|].
  rewrite Hdl, Hup. subst s4. cbn.
  split; [|reflexivity]. rewrite delete_insert_eq. apply delete_id, Hnew.
Qed.

(** ** The handler on its own *)

Ltac hstep := repeat progress (cbn [run_handler complete_step]; run).

Section HandlerRuns.

Variable quote : string -> string.

Local Abbreviation run_handler' := (run_handler quote).

Lemma run_handler_app l1 l2 pc s :
  run_handler' (l1 ++ l2) pc s =
  match run_handler' l1 pc s with
  | (Val pc', s') => run_handler' l2 pc' s'
  | (Exc e, s') => (Exc e, s')
  end.
Proof.
  revert pc s. induction l1 as [|[w o] l1 IH]; intros pc s; cbn [run_handler app].
  - reflexivity.
  - unfold bind. destruct (complete_step quote w o pc s) as [[pc'|e] s1];
      [apply IH|reflexivity].
Qed.

(** X11: the completion of a download that is a regular file and not a
    Mega download: in four steps the handler refreshes the record,
    classifies the path, registers the upload handle of the drive under the
    gid, and ends.  The record stays tracked, nothing is sent to the chat,
    and a torrent gets its seeding task. *)
Theorem file_completion_registers_upload w g d s :
  tellStatus (engine w) g = Val d ->
  metadata d = false ->
  is_file w d = true ->
  g ∉ mega s ->
  exists s',
    run_handler quote (replicate 4 (w, None)) (CRefresh g) s = (Val CDone, s') /\
    downloads s' = <[g := d]> (downloads s) /\
    (exists h, uploads s' = <[g := UFile h]> (uploads s)) /\
    context s' = context s /\
    trace s' = trace s ++ EvUploadFile (gid d) ::
                 (if bittorrent d then [EvSpawnSeed ("Seed-" +:+ gid d)] else []).
Proof.
  intros Hd Hm Hf Hg.
  cbn [replicate run_handler complete_step]. unfold getDownload. run.
  rewrite Hd, Hm. hstep. cbn [mega set_downloads]. rewrite Hf.
  rewrite bool_decide_eq_false_2 by exact Hg. hstep.
  unfold uploadFile. run. hstep. unfold create_task. run.
  destruct (bittorrent d); eexists; (split; [reflexivity|]); cbn;
    rewrite <- ?app_assoc; eauto 10.
Qed.

(** X12: the completion of a download whose path is neither a file nor a
    directory: in four steps the handler drops the record and ends.
    Nothing is uploaded, nothing is sent to the chat, and the context and
    its notification stay as they were, also when the registry is now
    empty. *)
Theorem inaccessible_completion_is_silent w g d s :
  tellStatus (engine w) g = Val d ->
  metadata d = false ->
  fs w (path d) = KMissing ->
  exists s',
    run_handler quote (replicate 4 (w, None)) (CRefresh g) s = (Val CDone, s') /\
    downloads s' = delete g (downloads s) /\
    uploads s' = uploads s /\
    context s' = context s /\
    Forall (fun e => is_notice e = false) (drop (length (trace s)) (trace s')).
Proof.
  intros Hd Hm Hfs.
  cbn [replicate run_handler complete_step]. unfold getDownload. run.
  rewrite Hd, Hm. hstep. unfold is_file, is_dir. rewrite Hfs. hstep.
  unfold del_download. cbn [downloads set_downloads].
  rewrite lookup_insert_eq. hstep. unfold create_task. run.
  destruct (bittorrent d); eexists; (split; [reflexivity|]); cbn;
    rewrite delete_insert_eq; repeat split.
  - rewrite drop_app_length. repeat constructor.
  - rewrite drop_all. constructor.
Qed.

(** X13: the completion of a Mega download.  After three steps the handler
    is about to decrypt and the gid is not tracked: the record is deleted
    for the time of the decryption.  Once the relay has gone through, after
    six steps, the handler has ended: the gid has left [mega], the record
    is back as the engine reports it now, and the upload handle for that
    record is registered. *)
Theorem mega_completion_drops_then_reregisters w g d d2 s :
  tellStatus (engine w) g = Val d ->
  tellStatus (engine w) (gid d) = Val d2 ->
  metadata d = false ->
  is_file w d = true ->
  g ∈ mega s ->
  (exists s3,
     run_handler quote (replicate 3 (w, None)) (CRefresh g) s =
       (Val (CDecrypt g d), s3) /\
     downloads s3 = delete g (downloads s) /\ g ∈ mega s3 /\
     uploads s3 = uploads s /\ trace s3 = trace s) /\
  (exists s',
     run_handler quote (replicate 6 (w, None)) (CRefresh g) s = (Val CDone, s') /\
     mega s' = mega s ∖ {[g]} /\
     downloads s' = <[g := d2]> (downloads s) /\
     (exists h, uploads s' = <[g := UFile h]> (uploads s)) /\
     trace s' = trace s ++ EvDecrypt g :: EvUploadFile (gid d2) ::
                  (if bittorrent d then [EvSpawnSeed ("Seed-" +:+ gid d)]
                   else []) /\
     context s' = context s).
Proof.
  intros Hd Hd2 Hm Hf Hg. split.
  - cbn [replicate run_handler complete_step]. unfold getDownload. run.
    rewrite Hd, Hm. hstep. cbn [mega downloads set_downloads]. rewrite Hf.
    rewrite bool_decide_eq_true_2 by exact Hg. hstep.
    unfold del_download. cbn [downloads set_downloads].
    rewrite lookup_insert_eq.
    eexists. split; [reflexivity|]. cbn. rewrite delete_insert_eq. auto.
  - cbn [replicate run_handler complete_step]. unfold getDownload. run.
    rewrite Hd, Hm. hstep. cbn [mega downloads set_downloads]. rewrite Hf.
    rewrite bool_decide_eq_true_2 by exact Hg. hstep.
    unfold del_download. cbn [downloads set_downloads].
    rewrite lookup_insert_eq. hstep.
    unfold mega_remove. cbn [mega downloads set_downloads set_trace].
    rewrite bool_decide_eq_true_2 by exact Hg. rewrite Hd2. hstep.
    unfold uploadFile. run. hstep. unfold create_task. run.
    destruct (bittorrent d); eexists; (split; [reflexivity|]); cbn;
      rewrite delete_insert_eq, insert_delete_eq, <- ?app_assoc; eauto 10.
Qed.

End HandlerRuns.

(** ** A folder upload from start to end *)

Section FolderRun.

Variable quote : string -> string.

Local Abbreviation run_handler' := (run_handler quote).

Lemma folderLink_index s1 s2 file folderId :
  index_link s1 = index_link s2 ->
  folderLink quote s1 file folderId = folderLink quote s2 file folderId.
Proof. unfold folderLink. intros ->. reflexivity. Qed.

(** One trip around the loop: the next task is created, awaited to its
    end, and counted. *)
Lemma folder_trip w g file fid r c p s :
  uploads s !! g = Some (UFolder r c) ->
  generators s !! r = Some (mkGenerator g (S p) false) ->
  exists s',
    run_handler' (replicate 3 (w, Some (Val tt))) (CFolderNext g file fid r) s =
      (Val (CFolderNext g file fid r), s') /\
    uploads s' = <[g := UFolder r (S c)]> (uploads s) /\
    generators s' !! r = Some (mkGenerator g p false) /\
    length (generators s') = length (generators s) /\
    all_tasks s' = all_tasks s ++ [mkTask g false true] /\
    downloads s' = downloads s /\ context s' = context s /\
    trace s' = trace s /\ index_link s' = index_link s.
Proof.
  intros Hup Hgen.
  cbn [replicate run_handler complete_step]. unfold anext. run.
  rewrite Hgen. cbn [g_closed g_pending g_gid]. hstep.
  unfold await_task. run.
  cbn [all_tasks set_all_tasks set_generators].
  rewrite list_lookup_middle by reflexivity. cbn [t_cancelled]. hstep.
  unfold incr_counter. cbn [uploads set_all_tasks set_generators].
  rewrite Hup. hstep.
  eexists. split; [reflexivity|]. cbn.
  split; [reflexivity|]. split.
  { rewrite list_lookup_alter_eq, Hgen. reflexivity. }
  split; [apply length_alter|]. split; [|auto].
  rewrite <- (Nat.add_0_r (length (all_tasks s))), alter_app_r. reflexivity.
Qed.

Lemma folder_loop w g file fid r k :
  forall c p s,
    (k <= p)%nat ->
    uploads s !! g = Some (UFolder r c) ->
    generators s !! r = Some (mkGenerator g p false) ->
    exists s',
      run_handler' (replicate (3 * k) (w, Some (Val tt)))
        (CFolderNext g file fid r) s =
        (Val (CFolderNext g file fid r), s') /\
      uploads s' = <[g := UFolder r (c + k)]> (uploads s) /\
      generators s' !! r = Some (mkGenerator g (p - k) false) /\
      length (generators s') = length (generators s) /\
      all_tasks s' = all_tasks s ++ replicate k (mkTask g false true) /\
      downloads s' = downloads s /\ context s' = context s /\
      trace s' = trace s /\ index_link s' = index_link s.
Proof.
  induction k as [|k IH]; intros c p s Hk Hup Hgen.
  - exists s. split; [reflexivity|].
    rewrite Nat.add_0_r, Nat.sub_0_r, app_nil_r.
    split; [symmetry; apply insert_id, Hup|]. auto 10.
  - destruct p as [|p]; [lia|].
    replace (3 * S k)%nat with (3 + 3 * k)%nat by lia.
    rewrite replicate_add, run_handler_app.
    destruct (folder_trip w g file fid r c p s Hup Hgen)
      as (s1 & Hrun & Hu1 & Hg1 & Hl1 & Ht1 & Hd1 & Hc1 & Htr1 & Hi1).
    rewrite Hrun.
    destruct (IH (S c) p s1) as (s' & Hrun' & Hu & Hg & Hl & Ht & Hd & Hc & Htr & Hi).
    { lia. }
    { rewrite Hu1. apply lookup_insert_eq. }
    { exact Hg1. }
    exists s'. split; [exact Hrun'|].
    rewrite Hu, Hu1, Hg, Hl, Hl1, Ht, Ht1, Hd, Hd1, Hc, Hc1, Htr, Htr1, Hi, Hi1.
    rewrite insert_insert_eq, <- app_assoc.
    replace (S c + k)%nat with (c + S k)%nat by lia.
    replace (S p - S k)%nat with (p - k)%nat by lia.
    repeat split.
Qed.

(** The opening steps of a completed folder download: the record is
    refreshed, the path classified, the remote folder created, the lazy
    sequence obtained, and the upload state registered with a counter of
    zero. *)
Lemma folder_begin w g file s :
  tellStatus (engine w) g = Val file ->
  metadata file = false ->
  fs w (path file) = KDir ->
  exists s',
    run_handler' (replicate 4 (w, Some (Val tt))) (CRefresh g) s =
      (Val (CFolderNext g file (new_folder_id w) (length (generators s))), s') /\
    uploads s' = <[g := UFolder (length (generators s)) 0]> (uploads s) /\
    generators s' !! length (generators s) =
      Some (mkGenerator g (folder_files w) false) /\
    all_tasks s' = all_tasks s /\
    downloads s' = <[g := file]> (downloads s) /\ context s' = context s /\
    trace s' = trace s ++ [EvCreateFolder (name file);
                           EvUploadFolder g (length (generators s))] /\
    index_link s' = index_link s.
Proof.
  intros Hd Hm Hfs.
  cbn [replicate run_handler complete_step]. unfold getDownload. run.
  rewrite Hd, Hm. hstep. unfold is_file, is_dir. rewrite Hfs. hstep.
  unfold createFolder, uploadFolder. run. hstep.
  eexists. split; [reflexivity|]. cbn.
  rewrite <- app_assoc. repeat split.
  apply list_lookup_middle. reflexivity.
Qed.

(** X14: while a folder is uploaded, the counter of its upload state is the
    number of files uploaded so far.  For a completed download that is a
    directory of [folder_files w] files, with every task finishing: after
    the four opening steps and three steps per file the handler is back at
    the head of its loop, the counter reads [k], exactly [k] tasks named
    after the gid have been created and are done, and the lazy sequence has
    the other files left. *)
Theorem folder_counter_counts_uploaded_files w g file s k :
  tellStatus (engine w) g = Val file ->
  metadata file = false ->
  fs w (path file) = KDir ->
  (k <= folder_files w)%nat ->
  exists s',
    run_handler quote (replicate (4 + 3 * k) (w, Some (Val tt))) (CRefresh g) s =
      (Val (CFolderNext g file (new_folder_id w) (length (generators s))), s') /\
    uploads s' !! g = Some (UFolder (length (generators s)) k) /\
    generators s' !! length (generators s) =
      Some (mkGenerator g (folder_files w - k) false) /\
    all_tasks s' = all_tasks s ++ replicate k (mkTask g false true) /\
    downloads s' !! g = Some file.
Proof.
  intros Hd0 Hm Hfs Hk. rewrite replicate_add, run_handler_app.
  destruct (folder_begin w g file s Hd0 Hm Hfs)
    as (s1 & Hrun1 & Hu1 & Hg1 & Ht1 & Hd1 & _).
  rewrite Hrun1.
  destruct (folder_loop w g file (new_folder_id w) (length (generators s)) k
              0%nat (folder_files w) s1 Hk)
    as (s' & Hrun & Hu & Hg & _ & Ht & Hd & _).
  { rewrite Hu1. apply lookup_insert_eq. }
  { exact Hg1. }
  exists s'. split; [exact Hrun|].
  rewrite Hu, Hg, Ht, Ht1, Hd, Hd1. rewrite !lookup_insert_eq. auto.
Qed.

(** X15: a folder upload that nobody cancels runs to its end.  For a
    completed download that is a directory, with a context whose
    notification stands, a chat that accepts the message and every task
    finishing, the handler ends after eight steps and three per file.  Then
    the record and the upload state of the gid are gone and no other is;
    one task per file, named after the gid, is done; and the chat got the
    folder link once: as a reply to the notification, which is then
    deleted, when the registry is empty, and through the context
    otherwise.  A torrent gets its seeding task last. *)
Theorem folder_upload_runs_to_completion w g file c m m' s :
  tellStatus (engine w) g = Val file ->
  metadata file = false ->
  fs w (path file) = KDir ->
  context s = Some c ->
  response c = Some m ->
  channel w = Val m' ->
  exists s',
    run_handler quote (replicate (3 * folder_files w + 8) (w, Some (Val tt)))
      (CRefresh g) s = (Val CDone, s') /\
    downloads s' = delete g (downloads s) /\
    uploads s' = delete g (uploads s) /\
    all_tasks s' =
      all_tasks s ++ replicate (folder_files w) (mkTask g false true) ++
      (if bittorrent file then [mkTask ("Seed-" +:+ gid file) false false]
       else []) /\
    let link := folderLink quote s file (new_folder_id w) in
    trace s' =
      trace s ++
      [EvCreateFolder (name file); EvUploadFolder g (length (generators s))] ++
      match count s' with
      | O => [EvRespond m link ModeReply; EvDelete m]
      | S _ => [EvCtxRespond (msg c) link ModeReply]
      end ++
      (if bittorrent file then [EvSpawnSeed ("Seed-" +:+ gid file)] else []).
Proof.
  intros Hd0 Hm Hfs Hc Hr Hch.
  replace (3 * folder_files w + 8)%nat
    with (4 + (3 * folder_files w + 4))%nat by lia.
  rewrite replicate_add, run_handler_app.
  destruct (folder_begin w g file s Hd0 Hm Hfs)
    as (s1 & Hrun1 & Hu1 & Hg1 & Ht1 & Hd1 & Hc1 & Htr1 & Hi1).
  rewrite Hrun1. rewrite replicate_add, run_handler_app.
  destruct (folder_loop w g file (new_folder_id w) (length (generators s))
              (folder_files w) 0%nat (folder_files w) s1 (le_n _))
    as (s2 & Hrun2 & Hu2 & Hg2 & _ & Ht2 & Hd2 & Hc2 & Htr2 & Hi2).
  { rewrite Hu1. apply lookup_insert_eq. }
  { exact Hg1. }
  rewrite Hrun2. rewrite Nat.sub_diag in Hg2.
  cbn [replicate run_handler complete_step]. unfold anext. run.
  rewrite Hg2. cbn [g_closed g_pending]. hstep.
  unfold del_upload, del_download.
  rewrite Hu2, lookup_insert_eq. cbn [downloads set_uploads].
  rewrite Hd2, Hd1, lookup_insert_eq. hstep.
  set (s3 := set_downloads (delete g) (set_uploads (delete g) s2)).
  assert (Hc3 : context s3 = Some c) by (cbn; congruence).
  assert (Hd3 : downloads s3 = delete g (downloads s)).
  { cbn. rewrite Hd2, Hd1. apply delete_insert_eq. }
  assert (Hu3 : uploads s3 = delete g (uploads s)).
  { cbn. rewrite Hu2, Hu1, insert_insert_eq. apply delete_insert_eq. }
  assert (Ht3 : all_tasks s3 =
                all_tasks s ++ replicate (folder_files w) (mkTask g false true))
    by (cbn; congruence).
  assert (Htr3 : trace s3 =
                 trace s ++ [EvCreateFolder (name file);
                             EvUploadFolder g (length (generators s))])
    by (cbn; congruence).
  rewrite (folderLink_index s3 s file (new_folder_id w))
    by (cbn; congruence).
  clearbody s3.
  unfold context_response, bot_respond, ctx_respond, create_task.
  destruct (count s3) eqn:Hcount; run; rewrite Hc3, ?Hr, Hch; hstep;
    destruct (bittorrent file); eexists; (split; [reflexivity|]);
    unfold count in *; cbn; rewrite Hd3 in *; rewrite Hcount, Hu3, Ht3, Htr3;
    rewrite <- ?app_assoc, ?app_nil_r; cbn; repeat split.
Qed.

End FolderRun.

(** ** More on the facade *)





(** [strip] removes the white space of Python at both ends, beyond ASCII
    too, and nothing inside; a zero-width space is not white space. *)
Example strip_removes_unicode_white_space :
  strip (utf8 160 +:+ " " +:+ utf8 8195 +:+ "a b" +:+ utf8 133 +:+
         utf8 12288 +:+ " ") = "a b" /\
  strip (utf8 8203 +:+ "a") = utf8 8203 +:+ "a" /\
  strip (utf8 8232 +:+ utf8 5760) = "".
Proof. vm_compute. repeat split; reflexivity. Qed.

(** [replace] with an empty pattern puts the new text around every code
    point, as [str.replace] does. *)
Example replace_empty_pattern :
  replace "" "-" "abc" = "-a-b-c-" /\ replace "" "-" "" = "-" /\
  replace "" "-" (utf8 233) = "-" +:+ utf8 233 +:+ "-" /\
  replace "aa" "X" "aaa" = "Xa".
Proof. vm_compute. repeat split; reflexivity. Qed.


Section FacadeMore.

Variable literal_eval_message : string -> res string.
Variable utf8_decode : list Byte.byte -> option string.

Local Abbreviation cancelMirror' := (cancelMirror literal_eval_message).
Local Abbreviation addDownload' := (addDownload literal_eval_message utf8_decode).

(** X16: [cancelMirror] only marks.  In every outcome it leaves the
    records, the upload state, the context, the Mega set, the tasks and the
    generators as they were, adds at most the gid to [cancelled], and calls
    nothing but the engine's forcePause and forceRemove for that gid: the
    removal itself is left to the progress loop. *)
Theorem cancelMirror_only_marks w g s :
  let s' := snd (cancelMirror literal_eval_message w g s) in
  downloads s' = downloads s /\ uploads s' = uploads s /\
  context s' = context s /\ mega s' = mega s /\
  all_tasks s' = all_tasks s /\ generators s' = generators s /\
  (cancelled s' = cancelled s \/ cancelled s' = cancelled s ∪ {[g]}) /\
  exists evs,
    trace s' = trace s ++ evs /\
    Forall (fun e => e = EvForcePause g \/ e = EvForceRemove g) evs.
Proof.
  cbn zeta. unfold cancelMirror, _formatSE. run.
  destruct (tellStatusFields (engine w) g) as [doc|e].
  - destruct (String.eqb (sd_status doc) "active").
    + destruct (forcePause (engine w) g) as [[]|e1];
        [destruct (forceRemove (engine w) g) as [[]|e2]|]; cbn;
        rewrite <- ?app_assoc; repeat split; auto;
        eexists; (split; [reflexivity|]);
        cbn [app]; repeat (apply Forall_cons_2; [auto|]); apply Forall_nil_2.
    + destruct (String.eqb (sd_status doc) "complete" && truthy (sd_followedBy doc));
        cbn; repeat split; auto; exists []; rewrite app_nil_r; auto.
  - assert (Hsame : forall (r : res (option string)),
              downloads (snd (r, s)) = downloads s /\
              uploads (snd (r, s)) = uploads s /\
              context (snd (r, s)) = context s /\ mega (snd (r, s)) = mega s /\
              all_tasks (snd (r, s)) = all_tasks s /\
              generators (snd (r, s)) = generators s /\
              (cancelled (snd (r, s)) = cancelled s \/
               cancelled (snd (r, s)) = cancelled s ∪ {[g]}) /\
              exists evs,
                trace (snd (r, s)) = trace s ++ evs /\
                Forall (fun e => e = EvForcePause g \/ e = EvForceRemove g) evs).
    { intros r. cbn. repeat split; auto. exists []. rewrite app_nil_r. auto. }
    destruct e; try apply Hsame.
    destruct (literal_eval_message (strip (split2_last text))) as [m|e];
      [|apply Hsame].
    destruct (contains g ("__" +:+ m +:+ "__")); apply Hsame.
Qed.

(** X17: for an active download the two engine calls are made outside any
    [try].  When the engine rejects the pause, or accepts it and rejects the
    removal, the exception leaves [cancelMirror] and the gid is not marked:
    the progress loop will not unwind it, although the download may already
    be paused in the engine. *)
Theorem cancelMirror_engine_failure_leaves_unmarked w g doc e s :
  tellStatusFields (engine w) g = Val doc ->
  sd_status doc = "active" ->
  forcePause (engine w) g = Exc e \/
  (forcePause (engine w) g = Val tt /\ forceRemove (engine w) g = Exc e) ->
  fst (cancelMirror literal_eval_message w g s) = Exc e /\
  cancelled (snd (cancelMirror literal_eval_message w g s)) = cancelled s /\
  downloads (snd (cancelMirror literal_eval_message w g s)) = downloads s.
Proof.
  intros Hdoc Hact H. unfold cancelMirror. rewrite Hdoc, Hact.
  cbn [String.eqb Ascii.eqb Bool.eqb andb]. run.
  destruct H as [Hp|[Hp Hr]]; rewrite Hp; [|rewrite Hr]; cbn; auto.
Qed.


(** X19: [addDownload] on a URI installs the context exactly when the
    engine accepts the URI.  On acceptance the previous notification, if
    one stood, is deleted, the new context is installed, the gid is
    returned (nothing, if the engine returned an empty gid) and enters the
    Mega set when the flag is set; on rejection the server is as it was but
    for the call made, so the previous context and its notification stay. *)
Theorem addDownload_uri_installs_context_iff_accepted w uri ctx flag s :
  match addUri (engine w) uri with
  | Val g =>
      exists s',
        addDownload literal_eval_message utf8_decode w (SStr uri) ctx flag s =
          (Val (if String.eqb g "" then None else Some g), s') /\
        context s' = Some ctx /\
        trace s' = trace s ++ EvAddUri uri ::
                     match standing s with
                     | Some r => [EvDelete r]
                     | None => []
                     end /\
        mega s' = (if flag && negb (String.eqb g "")
                   then mega s ∪ {[g]} else mega s) /\
        downloads s' = downloads s /\ uploads s' = uploads s /\
        cancelled s' = cancelled s
  | Exc e =>
      snd (addDownload literal_eval_message utf8_decode w (SStr uri) ctx flag s)
      = set_trace (fun t => t ++ [EvAddUri uri]) s
  end.
Proof.
  unfold addDownload, install_context, _formatSE, standing. run.
  destruct (addUri (engine w) uri) as [g|e].
  - cbn [context set_trace].
    destruct (context s) as [c|]; [destruct (response c)|];
      destruct g as [|x g]; destruct flag; cbn;
      eexists; (split; [reflexivity|]); cbn;
      rewrite <- ?app_assoc; repeat split.
  - destruct e; try reflexivity.
    destruct (literal_eval_message (strip (split2_last text))); reflexivity.
Qed.

(** X20: [addDownload] registers nothing itself.  Whatever it is given and
    whatever the engine answers, it leaves the records, the upload state
    and the cancellation marks as they were and sends nothing to the chat;
    and for torrent bytes the Mega set stays as it was, whatever the flag
    says. *)
Theorem addDownload_registers_nothing w types ctx flag s :
  let s' := snd (addDownload literal_eval_message utf8_decode w types ctx flag s) in
  downloads s' = downloads s /\ uploads s' = uploads s /\
  cancelled s' = cancelled s /\
  (forall torrent, types = SBytes torrent -> mega s' = mega s) /\
  Forall (fun e => is_notice e = false) (drop (length (trace s)) (trace s')).
Proof.
  cbn zeta. unfold addDownload, install_context, _formatSE. run.
  destruct types as [uri|torrent|type_name].
  - destruct (addUri (engine w) uri) as [g|e].
    + cbn [context set_trace].
      destruct (context s) as [c|]; [destruct (response c)|];
        destruct g as [|x g]; destruct flag; cbn;
        rewrite <- ?app_assoc, drop_app_length;
        repeat split; try discriminate; repeat constructor.
    + assert (H : forall r : res (option string),
                Forall (fun e => is_notice e = false)
                  (drop (length (trace s))
                     (trace (snd (r, set_trace (fun t => t ++ [EvAddUri uri]) s)))))
        by (intros r; cbn; rewrite drop_app_length; repeat constructor).
      destruct e;
        try destruct (literal_eval_message (strip (split2_last text)));
        cbn [snd]; repeat split; try discriminate;
        apply (H (Exc OtherError)).
  - destruct (utf8_decode torrent) as [text|]; cbn.
    + destruct (addTorrent (engine w) text) as [g|e]; cbn.
      * destruct (context s) as [c|]; [destruct (response c)|]; cbn;
          rewrite <- ?app_assoc, drop_app_length;
          repeat split; repeat constructor.
      * rewrite drop_app_length. repeat split; repeat constructor.
    + rewrite drop_all. repeat split; constructor.
  - cbn. rewrite drop_all. repeat split; try discriminate. constructor.
Qed.

End FacadeMore.

(** ** The error text *)

Lemma append_cons x a b : String x a +:+ b = String x (a +:+ b).
Proof. reflexivity. Qed.

Lemma after_colon_no_colon a b :
  no_colon a = true -> after_colon (a +:+ ":" +:+ b) = Some b.
Proof.
  induction a as [|x a IH]; intros H; [reflexivity|].
  cbn [no_colon] in H. apply andb_true_iff in H as [Hx Ha].
  rewrite append_cons. cbn [after_colon].
  destruct (Ascii.eqb x ":"); [discriminate Hx|]. apply IH, Ha.
Qed.

Lemma after_colon_none a : no_colon a = true -> after_colon a = None.
Proof.
  induction a as [|x a IH]; intros H; [reflexivity|].
  cbn [no_colon] in H. apply andb_true_iff in H as [Hx Ha].
  cbn [after_colon]. destruct (Ascii.eqb x ":"); [discriminate Hx|].
  apply IH, Ha.
Qed.

(** X21: [_formatSE] reads the third colon-separated field of the error
    text, colons included: for a text [a:b:payload] whose first two fields
    have no colon, it evaluates the payload, stripped of the white space
    [str.strip] removes at either end (the code points of [whitespace],
    those beyond ASCII included), and returns its message between
    underscores, leaving the server alone.  With one colon only it reads
    what follows it, and with none the whole text. *)
Theorem _formatSE_reads_third_field
    (literal_eval_message : string -> res string) a b payload s :
  no_colon a = true ->
  no_colon b = true ->
  _formatSE literal_eval_message (a +:+ ":" +:+ b +:+ ":" +:+ payload) s =
    (match literal_eval_message (strip payload) with
     | Val m => Val ("__" +:+ m +:+ "__")
     | Exc e => Exc e
     end, s) /\
  split2_last (a +:+ ":" +:+ b) = b /\
  split2_last a = a.
Proof.
  intros Ha Hb. unfold _formatSE, split2_last. run.
  rewrite !after_colon_no_colon by assumption.
  rewrite (after_colon_none b Hb), (after_colon_none a Ha).
  split; [|auto].
  destruct (literal_eval_message (strip payload)); reflexivity.
Qed.

(** ** The blocks of the relay *)

Lemma reader_from_sizes size room cur data :
  (0 < size)%N ->
  (N.of_nat (length cur) + room = size)%N ->
  Forall (fun chunk => (N.of_nat (length chunk) <= size)%N)
    (Relay.reader_from size room cur data) /\
  forall (i : nat) chunk,
    Relay.reader_from size room cur data !! i = Some chunk ->
    (S i < length (Relay.reader_from size room cur data))%nat ->
    N.of_nat (length chunk) = size.
Proof.
  intros Hpos. revert room cur.
  induction data as [|b rest IH]; intros room cur Hinv;
    cbn [Relay.reader_from].
  - destruct cur as [|x cur].
    + split; [constructor|]. intros i chunk H. discriminate H.
    + split.
      * constructor; [|constructor]. rewrite length_rev. lia.
      * intros i chunk _ Hlen. cbn in Hlen. lia.
  - destruct (room =? 0)%N eqn:E.
    + apply N.eqb_eq in E. subst room.
      destruct (IH (size - 1)%N [b]) as [Hall Hfull]; [cbn; lia|].
      split.
      * constructor; [rewrite length_rev; lia|exact Hall].
      * intros [|i] chunk Hl Hlen.
        -- injection Hl as <-. rewrite length_rev. lia.
        -- cbn in Hl, Hlen. apply (Hfull i chunk Hl). lia.
    + apply N.eqb_neq in E. apply IH. cbn [length]. lia.
Qed.

(** X23: the reader hands the relay blocks of at most the chunk size, and
    every block but the last has exactly that size; so the handler never
    holds more than 50 MiB of a download at a time, and only the last write
    can be short. *)
Theorem reader_blocks_full_but_last size data :
  (0 < size)%N ->
  Forall (fun chunk => (N.of_nat (length chunk) <= size)%N)
    (Relay.reader size data) /\
  forall (i : nat) chunk,
    Relay.reader size data !! i = Some chunk ->
    (S i < length (Relay.reader size data))%nat ->
    N.of_nat (length chunk) = size.
Proof.
  intros Hpos. unfold Relay.reader. apply reader_from_sizes; [exact Hpos|].
  cbn. lia.
Qed.

(** ** The progress bar *)

Lemma times_singleton (g : Glyph) n : times [g] n = replicate (Z.to_nat n) g.
Proof.
  unfold times. induction (Z.to_nat n) as [|k IH]; [reflexivity|].
  cbn. rewrite IH. reflexivity.
Qed.

Lemma times_four (g : Glyph) n :
  times [g; g; g; g] n = replicate (4 * Z.to_nat n) g.
Proof.
  unfold times. induction (Z.to_nat n) as [|k IH]; [reflexivity|].
  replace (4 * S k)%nat with (4 + 4 * k)%nat by lia.
  cbn. rewrite IH. reflexivity.
Qed.

Lemma without_hollow_filled k :
  without Hollow (replicate k Filled ++ [Hollow]) = replicate k Filled.
Proof. induction k as [|k IH]; [reflexivity|]. cbn. f_equal. exact IH. Qed.

(** X24: the bar printed for [n = int(round(percent * 10))].  Below ten it
    is [n] filled circles, one hollow circle, and four blanks for each of
    the [9 - n] positions left; from ten on it is [n] filled circles and
    nothing else, so it is not cut at ten; and for a negative [n] it is the
    hollow circle and thirty-six blanks. *)
Theorem progress_bar_shape n :
  progress_bar n =
  if n <? 10
  then replicate (Z.to_nat n) Filled ++ Hollow ::
       replicate (4 * (9 - Z.to_nat n)) Blank
  else replicate (Z.to_nat n) Filled.
Proof.
  unfold progress_bar, bullets, space.
  rewrite times_singleton, length_app, length_replicate. cbn [length].
  destruct (n <? 10) eqn:E.
  - apply Z.ltb_lt in E.
    replace (10 <? Z.of_nat (Z.to_nat n + 1)) with false
      by (symmetry; apply Z.ltb_ge; lia).
    rewrite times_four, length_app, length_replicate. cbn [length].
    rewrite <- app_assoc. cbn [app]. do 3 f_equal. lia.
  - apply Z.ltb_ge in E.
    replace (10 <? Z.of_nat (Z.to_nat n + 1)) with true
      by (symmetry; apply Z.ltb_lt; lia).
    rewrite without_hollow_filled, times_four, length_replicate.
    replace (Z.to_nat (10 - Z.of_nat (Z.to_nat n))) with 0%nat by lia.
    cbn. apply app_nil_r.
Qed.

(** ** Stopping *)

Section Stop.

Variable quote : string -> string.
Variable human : Z -> string.
Variable render_upload : MediaFileUpload -> UploadStatus -> Z -> res string.
Variable render_folder : Download -> nat -> res string.
Variable render_decrypt : World -> Download -> res string.
Variable render_download : Download -> string.

(** X25: [on_stop] raises the stop flag before it talks to the client, so
    the progress loop ends at its next check whether or not the shutdown
    succeeds: on the server [on_stop] leaves, [updateProgress] returns at
    once and changes nothing, however many iterations it is given.
    [on_stop] keeps the records, the upload state and the trace (it deletes
    no message), and clears the context exactly when both client calls
    returned. *)
Theorem on_stop_ends_progress_loop shutdown close s ws last :
  exists s',
    snd (on_stop shutdown close (Some s)) = Some s' /\
    stopping s' = true /\
    updateProgress quote human render_upload render_folder render_decrypt
      render_download ws last s' = (Val tt, s') /\
    downloads s' = downloads s /\ uploads s' = uploads s /\
    trace s' = trace s /\
    context s' = match fst (on_stop shutdown close (Some s)) with
                 | Val _ => None
                 | Exc _ => context s
                 end.
Proof.
  unfold on_stop, stop_server. run. cbn [fst snd].
  destruct shutdown as [[]|e1]; [destruct close as [[]|e2]|];
    eexists; (split; [reflexivity|]); cbn;
    (split; [reflexivity|]);
    (split; [destruct ws as [|[w gate_world] rest]; reflexivity|]);
    repeat split.
Qed.

End Stop.

(** ** Seeding after a cancellation *)


(** ** Cancelling, then the next tick *)

Section CancelThenTick.

Variable literal_eval_message : string -> res string.

(** X28: a cancelled download is gone after the next tick.  When
    [cancelMirror] accepts a gid (the engine answers the status query, the
    download is not finished metadata, and for an active download the
    engine accepts the pause and the removal), the cancellation pass of the
    following tick leaves [cancelled] empty and the gid without a record,
    and takes no record and no upload state from a gid that was not
    marked.  (Provided no marked gid has a file handle registered for a
    directory.) *)
Theorem cancel_then_tick_untracks w1 w2 g doc s :
  tellStatusFields (engine w1) g = Val doc ->
  String.eqb (sd_status doc) "complete" && truthy (sd_followedBy doc) = false ->
  (sd_status doc = "active" ->
   forcePause (engine w1) g = Val tt /\ forceRemove (engine w1) g = Val tt) ->
  (forall g' f h, g' ∈ cancelled s ∪ {[g]} -> downloads s !! g' = Some f ->
                  is_dir w2 f = true -> uploads s !! g' = Some (UFile h) ->
                  False) ->
  exists s1 s2,
    cancelMirror literal_eval_message w1 g s = (Val None, s1) /\
    unwind_all w2 s1 = (Val tt, s2) /\
    cancelled s2 = ∅ /\
    downloads s2 !! g = None /\
    forall g', g' ∉ cancelled s -> g' <> g ->
               downloads s2 !! g' = downloads s !! g' /\
               uploads s2 !! g' = uploads s !! g'.
Proof.
  intros Hdoc Hfin Hforce Hok.
  assert (Hmark : exists s1,
            cancelMirror literal_eval_message w1 g s = (Val None, s1) /\
            cancelled s1 = cancelled s ∪ {[g]} /\
            downloads s1 = downloads s /\ uploads s1 = uploads s).
  { unfold cancelMirror. rewrite Hdoc.
    destruct (String.eqb (sd_status doc) "active") eqn:Hact.
    - apply String.eqb_eq in Hact. destruct (Hforce Hact) as [Hp Hr].
      run. rewrite Hp, Hr. eexists. split; [reflexivity|]. cbn. auto.
    - rewrite Hfin. run. eexists. split; [reflexivity|]. cbn. auto. }
  destruct Hmark as (s1 & Hrun1 & Hc1 & Hd1 & Hu1).
  destruct (unwind_each_run w2 (elements (cancelled s1)) (NoDup_elements _) s1)
    as (s2 & Hrun2 & Hc2 & Hd2 & Hu2).
  { intros g'. apply elem_of_elements. }
  { intros g' f h Hg'. rewrite Hd1, Hu1. apply Hok.
    rewrite <- Hc1. apply elem_of_elements, Hg'. }
  exists s1, s2. split; [exact Hrun1|]. split.
  { unfold unwind_all. run. exact Hrun2. }
  split; [|split].
  - apply set_eq. intros g'. rewrite Hc2, elem_of_elements.
    split; [tauto|]. intros Hg'. apply not_elem_of_empty in Hg'. contradiction.
  - rewrite Hd2. rewrite bool_decide_eq_true_2; [reflexivity|].
    apply elem_of_elements. rewrite Hc1.
    apply elem_of_union_r, elem_of_singleton. reflexivity.
  - intros g' Hg' Hne.
    assert (Hnot : g' ∉ elements (cancelled s1)).
    { rewrite elem_of_elements, Hc1, elem_of_union, elem_of_singleton. tauto. }
    rewrite Hd2, Hu2 by exact Hnot.
    rewrite bool_decide_eq_false_2 by exact Hnot.
    rewrite Hd1, Hu1. auto.
Qed.

End CancelThenTick.

(** ** The further properties on the scenarios *)

(** An upload half way: the step returns its text and changes nothing. *)
Lemma uploadProgress_result_shape_witness :
  (false = false /\ is_Some (Some "`ubuntu.iso` Uploading") /\
   uploading_server = uploading_server) \/
  (false = true /\ Some "`ubuntu.iso` Uploading" = None /\
   is_Some (uploads uploading_server !! u_gid demo_handle) /\
   is_Some (downloads uploading_server !! u_gid demo_handle) /\
   uploads uploading_server = delete (u_gid demo_handle) (uploads uploading_server) /\
   downloads uploading_server =
     delete (u_gid demo_handle) (downloads uploading_server)).
Proof.
  apply (uploadProgress_result_shape demo_quote demo_human demo_render_upload
           (demo_world rejecting_engine KFile
              (Some (mkUploadStatus 100 50), None) 0)
           demo_handle uploading_server).
  reflexivity.
Defined.

(** A finished upload on a server that has lost its context. *)
Lemma uploadProgress_unsent_witness :
  snd (uploadProgress demo_quote demo_human demo_render_upload
         (demo_world rejecting_engine KFile (None, Some demo_response) 0)
         demo_handle (set_context None uploading_server)) =
  set_context None uploading_server.
Proof.
  apply (uploadProgress_unsent_changes_nothing demo_quote demo_human
           demo_render_upload).
  left. reflexivity.
Defined.

(** The unwind of the marked gid of the folder server when its path is a
    regular file. *)
Lemma unwind_removes_witness :
  exists s',
    unwind (file_world KFile 0) demo_gid folder_server = (Val tt, s') /\
    cancelled s' = cancelled folder_server ∖ {[demo_gid]} /\
    downloads s' = delete demo_gid (downloads folder_server).
Proof.
  destruct (unwind_removes_mark_and_record (file_world KFile 0) demo_gid
              folder_server) as (s' & Hrun & Hc & Hd & _).
  - change (demo_gid ∈ ({[demo_gid]} : gset string)).
    apply elem_of_singleton. reflexivity.
  - intros f h _ H. discriminate H.
  - exists s'. auto.
Defined.

Lemma unwind_all_empties_witness :
  exists s',
    unwind_all (file_world KFile 0) folder_server = (Val tt, s') /\
    cancelled s' = ∅.
Proof.
  destruct (unwind_all_empties_cancelled (file_world KFile 0) folder_server)
    as (s' & Hrun & Hc & _).
  - intros g f h _ _ H. discriminate H.
  - exists s'. auto.
Defined.

(** An upload is half way.  The iteration begins a tenth of a second after
    the gate was passed, its [checkProgress] returns the progress text, and
    the gate is reached four seconds after it was last passed: the text is
    not sent, and the time of the last pass stays. *)
Lemma tick_never_edits_witness :
  let w := demo_world (accepting_engine demo_file (mkStatusDoc "complete" None))
             KFile (Some (mkUploadStatus 100 50), None) 5100000 in
  let gate_world := file_world KFile 9000000 in
  let out := updateProgress_tick demo_quote demo_human demo_render_upload
               demo_render_folder demo_render_decrypt demo_render_download
               w gate_world (Some 5000000) uploading_server in
  fst (checkProgress demo_quote demo_human demo_render_upload
         demo_render_folder demo_render_decrypt demo_render_download
         w uploading_server) = Val "`ubuntu.iso` Uploading" /\
  fst out = Val (Some 5000000) /\
  exists evs,
    trace (snd out) = trace uploading_server ++ evs /\
    Forall (fun e => link_or_delete e = true) evs.
Proof.
  cbn zeta. split; [vm_compute; reflexivity|].
  split; [vm_compute; reflexivity|].
  apply tick_within_five_seconds_never_edits. reflexivity.
Defined.

Lemma checkProgress_keeps_tracked_witness :
  uploads_tracked
    (snd (checkProgress demo_quote demo_human demo_render_upload
            demo_render_folder demo_render_decrypt demo_render_download
            (file_world KFile 0) uploading_server)).
Proof.
  apply checkProgress_keeps_uploads_tracked.
  intros g [u Hu].
  destruct (decide (g = demo_gid)) as [->|Hne]; [eexists; reflexivity|].
  change (uploads uploading_server)
    with ({[demo_gid := UFile demo_handle]} : gmap string Upload) in Hu.
  rewrite lookup_singleton_ne in Hu by congruence. discriminate Hu.
Defined.

(** The progress text of a server that tracks one active download. *)
Lemma checkProgress_lists_witness :
  exists files s',
    files ≡ₚ (snd <$> map_to_list (downloads (tracking_server demo_active))) /\
    checkProgress demo_quote demo_human demo_render_upload demo_render_folder
      demo_render_decrypt demo_render_download
      (demo_world (accepting_engine demo_active (mkStatusDoc "active" None))
         KFile (None, None) 0)
      (tracking_server demo_active) =
      (Val (blocks demo_render_download
              (demo_world (accepting_engine demo_active (mkStatusDoc "active" None))
                 KFile (None, None) 0) files), s').
Proof.
  destruct (checkProgress_lists_live_downloads demo_quote demo_human
              demo_render_upload demo_render_folder demo_render_decrypt
              demo_render_download
              (demo_world (accepting_engine demo_active (mkStatusDoc "active" None))
                 KFile (None, None) 0)
              (tracking_server demo_active))
    as (files & s' & Hp & Hrun & _).
  - intros g d _ H. discriminate H.
  - exists files, s'. auto.
Defined.

(** A failed download on a server without a context. *)
Lemma onDownloadError_unsent_witness :
  exists e,
    onDownloadError (file_world KFile 0) demo_gid
      (set_context None (tracking_server demo_file)) =
    (Exc e, set_context None (tracking_server demo_file)).
Proof.
  apply onDownloadError_unsent_changes_nothing. right. left. reflexivity.
Defined.

(** The failure of the only tracked download. *)
Lemma onDownloadError_reports_witness :
  exists text s',
    onDownloadError (file_world KFile 0) demo_gid (tracking_server demo_file) =
      (Val tt, s') /\
    downloads s' = delete demo_gid (downloads (tracking_server demo_file)) /\
    trace s' = [EvRespond 1 text ModeReply; EvDelete 2].
Proof.
  destruct (onDownloadError_reports_then_removes (file_world KFile 0) demo_gid
              demo_file demo_context 7%nat (tracking_server demo_file)
              eq_refl eq_refl eq_refl) as [text H].
  cbn zeta in H.
  change (downloads (tracking_server demo_file) !! gid demo_file)
    with (Some demo_file) in H.
  destruct H as (s' & Hrun & Hd & _ & _ & Hcase).
  exists text, s'. split; [exact Hrun|]. split; [exact Hd|].
  assert (Hcount : count s' = 0%nat)
    by (unfold count; rewrite Hd; vm_compute; reflexivity).
  rewrite Hcount in Hcase. destruct Hcase as [_ Ht]. exact Ht.
Defined.

Lemma start_then_error_witness :
  exists s',
    (onDownloadStart (file_world KFile 0) demo_gid >>
     onDownloadError (file_world KFile 0) demo_gid) idle_server = (Val tt, s') /\
    downloads s' = downloads idle_server /\ uploads s' = uploads idle_server.
Proof.
  apply (start_then_error_restores_registry (file_world KFile 0)
           (file_world KFile 0) demo_gid demo_file demo_file idle_server);
    reflexivity.
Defined.

Lemma file_completion_witness :
  exists s',
    run_handler demo_quote (replicate 4 (file_world KFile 0, None))
      (CRefresh demo_gid) idle_server = (Val CDone, s') /\
    downloads s' = <[demo_gid := demo_file]> (downloads idle_server).
Proof.
  destruct (file_completion_registers_upload demo_quote (file_world KFile 0)
              demo_gid demo_file idle_server eq_refl eq_refl eq_refl)
    as (s' & Hrun & Hd & _).
  - apply not_elem_of_empty.
  - exists s'. auto.
Defined.

Lemma inaccessible_completion_witness :
  exists s',
    run_handler demo_quote (replicate 4 (file_world KMissing 0, None))
      (CRefresh demo_gid) (tracking_server demo_file) = (Val CDone, s') /\
    downloads s' = delete demo_gid (downloads (tracking_server demo_file)) /\
    context s' = context (tracking_server demo_file).
Proof.
  destruct (inaccessible_completion_is_silent demo_quote
              (file_world KMissing 0) demo_gid demo_file
              (tracking_server demo_file) eq_refl eq_refl eq_refl)
    as (s' & Hrun & Hd & _ & Hc & _).
  exists s'. auto.
Defined.

Lemma mega_completion_witness :
  exists s3,
    run_handler demo_quote (replicate 3 (file_world KFile 0, None))
      (CRefresh demo_gid) (set_mega (fun _ => {[demo_gid]}) idle_server) =
      (Val (CDecrypt demo_gid demo_file), s3) /\
    downloads s3 =
      delete demo_gid (downloads (set_mega (fun _ => {[demo_gid]}) idle_server)).
Proof.
  destruct (mega_completion_drops_then_reregisters demo_quote
              (file_world KFile 0) demo_gid demo_file demo_file
              (set_mega (fun _ => {[demo_gid]}) idle_server)
              eq_refl eq_refl eq_refl eq_refl)
    as [(s3 & Hrun & Hd & _) _].
  - change (demo_gid ∈ ({[demo_gid]} : gset string)).
    apply elem_of_singleton. reflexivity.
  - exists s3. auto.
Defined.

(** Three of the ten files of the folder. *)
Lemma folder_counter_witness :
  exists s',
    run_handler demo_quote (replicate (4 + 3 * 3) (folder_world 0, Some (Val tt)))
      (CRefresh demo_gid) idle_server =
      (Val (CFolderNext demo_gid demo_folder (new_folder_id (folder_world 0))
              (length (generators idle_server))), s') /\
    uploads s' !! demo_gid = Some (UFolder (length (generators idle_server)) 3).
Proof.
  destruct (folder_counter_counts_uploaded_files demo_quote (folder_world 0)
              demo_gid demo_folder idle_server 3 eq_refl eq_refl eq_refl)
    as (s' & Hrun & Hu & _).
  - cbn. lia.
  - exists s'. auto.
Defined.

Lemma folder_completion_witness :
  exists s',
    run_handler demo_quote
      (replicate (3 * folder_files (folder_world 0) + 8)
         (folder_world 0, Some (Val tt)))
      (CRefresh demo_gid) idle_server = (Val CDone, s') /\
    downloads s' = delete demo_gid (downloads idle_server) /\
    uploads s' = delete demo_gid (uploads idle_server).
Proof.
  destruct (folder_upload_runs_to_completion demo_quote (folder_world 0)
              demo_gid demo_folder demo_context 2%nat 7%nat idle_server
              eq_refl eq_refl eq_refl eq_refl eq_refl eq_refl)
    as (s' & Hrun & Hd & Hu & _).
  exists s'. auto.
Defined.

(** The engine refuses to pause an active download. *)
Lemma cancelMirror_engine_failure_witness :
  fst (cancelMirror demo_literal_eval
         (demo_world stubborn_engine KFile (None, None) 0) demo_gid
         (tracking_server demo_active)) =
    Exc (Aria2rpcException demo_rejection) /\
  cancelled (snd (cancelMirror demo_literal_eval
                    (demo_world stubborn_engine KFile (None, None) 0) demo_gid
                    (tracking_server demo_active))) =
    cancelled (tracking_server demo_active).
Proof.
  destruct (cancelMirror_engine_failure_leaves_unmarked demo_literal_eval
              (demo_world stubborn_engine KFile (None, None) 0) demo_gid
              (mkStatusDoc "active" None) (Aria2rpcException demo_rejection)
              (tracking_server demo_active) eq_refl eq_refl)
    as (Hr & Hc & _).
  - left. reflexivity.
  - split; assumption.
Defined.


(** An error text whose payload stands between a no-break space and a
    blank on the left and an em space and a next-line character on the
    right. *)
Lemma _formatSE_witness :
  _formatSE demo_literal_eval
    ("aria2: rpc:" +:+ utf8 160 +:+
     " {'error': {'code': 1, 'message': 'No URI to download.'}}" +:+
     utf8 8195 +:+ utf8 133)
    idle_server =
  (Val "__No URI to download.__", idle_server).
Proof.
  destruct (_formatSE_reads_third_field demo_literal_eval "aria2" " rpc"
              (utf8 160 +:+
               " {'error': {'code': 1, 'message': 'No URI to download.'}}" +:+
               utf8 8195 +:+ utf8 133)
              idle_server eq_refl eq_refl) as (H & _).
  exact H.
Defined.

(** Fourteen bytes read four at a time. *)
Lemma reader_blocks_witness :
  Forall (fun chunk => (N.of_nat (length chunk) <= 4)%N)
    (Relay.reader 4 demo_plaintext).
Proof.
  destruct (reader_blocks_full_but_last 4 demo_plaintext) as [H _].
  - reflexivity.
  - exact H.
Defined.


(** The only tracked download is cancelled and the next tick unwinds it. *)
Lemma cancel_then_tick_witness :
  exists s1 s2,
    cancelMirror demo_literal_eval (file_world KFile 0) demo_gid
      (tracking_server demo_file) = (Val None, s1) /\
    unwind_all (file_world KFile 100000) s1 = (Val tt, s2) /\
    cancelled s2 = ∅ /\
    downloads s2 !! demo_gid = None.
Proof.
  destruct (cancel_then_tick_untracks demo_literal_eval (file_world KFile 0)
              (file_world KFile 100000) demo_gid (mkStatusDoc "complete" None)
              (tracking_server demo_file) eq_refl eq_refl)
    as (s1 & s2 & H1 & H2 & H3 & H4 & _).
  - intros H. discriminate H.
  - intros g' f h _ _ H. discriminate H.
  - exists s1, s2. auto.
Defined.
